(** * CiteCatch: a verified model of [scholar_cite_checker.py]

    The script polls an author's citation count, mails a notice when the
    count has grown and keeps the last observed count in a one-line text
    file.  This development embeds the script in Rocq and settles the
    behavioural claims made about it.

    Modelling conventions.

    - Text.  A Python [str] is a Rocq [string] whose characters are the code
      points 0..255.  On that range the decimal digits are exactly '0'..'9'
      and the white space of [str.strip] is 9..13, 28..31, 32, 0x85, 0xA0.
      Text with code points above 255 is outside the model.
    - Integers.  A Python [int] is a [Z].  With its default setting the
      interpreter refuses to convert between [int] and [str] beyond 4300
      digits and raises [ValueError], in [int(s)], in [str(n)] and in an
      f-string over an integer.  This is modelled ([PyStr.int],
      [formatting]) for the integers that are data: the text of the count
      file and of the port, the count to write, the looked-up record, and
      the counts and the increase that the loop formats.  The entries of the
      configuration are text or [None], and the port is an integer that
      [int] accepted; where the script formats an author name or ID, an
      address, the server or the port, the value is turned to text as it is.
    - Values.  The few dynamically typed values of the script (a count that
      may be [None], configuration entries that may be unset, the value bound
      to [search_query]) are elements of [pyval].  A count is [None], an
      integer or text; other numeric types (float, bool) are outside the
      model.
    - Effects.  The file system, the log written through [logging] and the
      sequence of calls that leave the process are fields of [world]; every
      function of the script is a state transformer on [world] that either
      returns a value or raises an exception ([M]).
    - Environment.  What the outside world answers during one cycle (the
      Scholar lookup, the SMTP dialogue, I/O faults, the clock) is given by
      a record [oracle] that the functions read but never change. *)

From Stdlib Require Import ZArith Lia Ascii String DecimalString DecimalZ DecimalPos.
From stdpp Require Import base option list strings gmap.

Local Open Scope Z_scope.

(** ** Python text *)

Module PyStr.

(** Code point of a character. *)
Definition ord (c : ascii) : Z := Z.of_N (N_of_ascii c).

(** [str.isspace] on one character (code points 0..255). *)
Definition isspace (c : ascii) : bool :=
  let n := ord c in
  ((9 <=? n) && (n <=? 13)) || ((28 <=? n) && (n <=? 32))
  || (n =? 133) || (n =? 160).

(** The white space that [int(str)] skips around a literal: the C-locale
    blanks, and the two non-ASCII blanks that the interpreter first rewrites
    to a space.  The separators 28..31 are not skipped. *)
Definition int_space (c : ascii) : bool :=
  let n := ord c in
  ((9 <=? n) && (n <=? 13)) || (n =? 32) || (n =? 133) || (n =? 160).

Definition is_empty (s : string) : bool :=
  match s with EmptyString => true | String _ _ => false end.

Fixpoint lstrip (p : ascii -> bool) (s : string) : string :=
  match s with
  | EmptyString => EmptyString
  | String c r => if p c then lstrip p r else s
  end.

Fixpoint rstrip (p : ascii -> bool) (s : string) : string :=
  match s with
  | EmptyString => EmptyString
  | String c r =>
      let r' := rstrip p r in
      if is_empty r' && p c then EmptyString else String c r'
  end.

Definition strip_with (p : ascii -> bool) (s : string) : string :=
  rstrip p (lstrip p s).

(** [s.strip()] *)
Definition strip (s : string) : string := strip_with isspace s.

(** Value of a decimal digit character. *)
Definition digit_of (c : ascii) : option Z :=
  let n := ord c in
  if (48 <=? n) && (n <=? 57) then Some (n - 48) else None.

(** The digit loop of [int]: digits, with single underscores allowed
    between digits.  [prev_us] tells that the previous character was an
    underscore. *)
Fixpoint scan_digits (s : string) (acc : Z) (prev_us : bool) : option Z :=
  match s with
  | EmptyString => if prev_us then None else Some acc
  | String c r =>
      if Ascii.eqb c "_" then
        if prev_us then None else scan_digits r acc true
      else
        match digit_of c with
        | Some d => scan_digits r (10 * acc + d) false
        | None => None
        end
  end.

(** The part of a literal after its sign: non-empty, no leading underscore. *)
Definition int_body (s : string) : option Z :=
  match s with
  | EmptyString => None
  | String c _ => if Ascii.eqb c "_" then None else scan_digits s 0 false
  end.

(** The value of a decimal literal, whatever its length. *)
Definition int_literal (s : string) : option Z :=
  match strip_with int_space s with
  | EmptyString => None
  | String c r =>
      if Ascii.eqb c "-" then Z.opp <$> int_body r
      else if Ascii.eqb c "+" then int_body r
      else int_body (String c r)
  end.

(** The interpreter's default [sys.get_int_max_str_digits()]. *)
Definition max_str_digits : Z := 4300.

(** Number of decimal digits in a text (sign, underscores and blanks do
    not count, leading zeros do). *)
Fixpoint digit_count (s : string) : Z :=
  match s with
  | EmptyString => 0
  | String c r =>
      match digit_of c with
      | Some _ => 1 + digit_count r
      | None => digit_count r
      end
  end.

Definition too_long (s : string) : bool := max_str_digits <? digit_count s.

(** [int(s)] for a string [s], base 10; [None] stands for [ValueError],
    raised for a malformed literal and for one of more than 4300 digits. *)
Definition int (s : string) : option Z :=
  match int_literal s with
  | Some z => if too_long s then None else Some z
  | None => None
  end.

(** The decimal text of an integer [z]. *)
Definition str (z : Z) : string := NilZero.string_of_int (Z.to_int z).

(** [str(z)] succeeds: the text of [z] has at most 4300 digits.  Beyond
    that [str(z)] raises [ValueError]. *)
Definition fits (z : Z) : bool := digit_count (str z) <=? max_str_digits.

(** The first [n] characters of a text. *)
Fixpoint take (n : nat) (s : string) : string :=
  match n, s with
  | S m, String c r => String c (take m r)
  | _, _ => EmptyString
  end.

(** [repr(s)], as error messages quote a text. *)
Definition quote : ascii := "'".
Definition dquote : ascii := ascii_of_nat 34.
Definition backslash : ascii := ascii_of_nat 92.

Fixpoint contains (c : ascii) (s : string) : bool :=
  match s with
  | EmptyString => false
  | String d r => Ascii.eqb c d || contains c r
  end.

(** [str.isprintable] on one character of Latin-1. *)
Definition isprintable (c : ascii) : bool :=
  let n := ord c in
  ((32 <=? n) && (n <? 127)) || ((161 <=? n) && negb (n =? 173)).

Definition hex_digit (n : Z) : ascii :=
  ascii_of_N (Z.to_N (if n <? 10 then 48 + n else 87 + n)).

Definition repr_char (q c : ascii) : string :=
  if Ascii.eqb c q || Ascii.eqb c backslash then String backslash (String c EmptyString)
  else if ord c =? 9 then String backslash "t"
  else if ord c =? 10 then String backslash "n"
  else if ord c =? 13 then String backslash "r"
  else if isprintable c then String c EmptyString
  else String backslash
         (String "x" (String (hex_digit (ord c / 16))
                        (String (hex_digit (ord c mod 16)) EmptyString))).

Fixpoint repr_body (q : ascii) (s : string) : string :=
  match s with
  | EmptyString => String q EmptyString
  | String c r => repr_char q c ++ repr_body q r
  end.

Definition repr (s : string) : string :=
  let q := if contains quote s && negb (contains dquote s) then dquote else quote in
  String q (repr_body q s).

End PyStr.

Arguments PyStr.max_str_digits : simpl never.
Arguments PyStr.too_long : simpl never.
Arguments PyStr.fits : simpl never.

(** ** Python values and exceptions *)

(** The dynamically typed values the script handles. *)
Inductive pyval : Type :=
| VNone
| VInt (z : Z)
| VStr (s : string)
| VGen (query : string).  (* the generator returned by [search_author(query)] *)

(** Truth value of a value, as tested by [if v], [not v] and [all]. *)
Definition truthy (v : pyval) : bool :=
  match v with
  | VNone => false
  | VInt z => negb (z =? 0)
  | VStr s => negb (PyStr.is_empty s)
  | VGen _ => true
  end.

(** Text of a value inside an f-string. *)
Definition py_str (v : pyval) : string :=
  match v with
  | VNone => "None"
  | VInt z => PyStr.str z
  | VStr s => s
  | VGen _ => "<generator object>"
  end.

Definition is_none (v : pyval) : bool :=
  match v with VNone => true | _ => false end.

(** [type(v).__name__], as error messages print it. *)
Definition type_name (v : pyval) : string :=
  match v with
  | VNone => "NoneType"
  | VInt _ => "int"
  | VStr _ => "str"
  | VGen _ => "generator"
  end.

(** [str(v)] and [f"{v}"] succeed: [v] is not an integer of more than 4300
    digits. *)
Definition formattable (v : pyval) : bool :=
  match v with
  | VInt z => PyStr.fits z
  | _ => true
  end.

Arguments formattable : simpl never.

(** An author record of the Scholar client is a dictionary. *)
Abbreviation author := (gmap string pyval).

(** [d.get(key, default)] *)
Definition dict_get (d : author) (key : string) (dflt : pyval) : pyval :=
  default dflt (d !! key).

(** [key in d] *)
Definition dict_has (d : author) (key : string) : bool :=
  bool_decide (is_Some (d !! key)).

(** Truth value of a dictionary: non-empty. *)
Definition dict_truthy (d : author) : bool := negb (bool_decide (d = ∅)).

(** The exception classes the script names in an [except] clause or can
    meet; every one is a subclass of [Exception].  [OtherException] stands
    for any class not listed in it (an [OSError], a network error, ...),
    [ValueError] also for its subclasses. *)
Inductive exn_class : Type :=
| FileNotFoundError | ValueError | TypeError | StopIteration
| SMTPAuthenticationError | OtherException.

Record exn : Type := Exn { exn_cls : exn_class; exn_msg : string }.

Definition exn_class_eqb (a b : exn_class) : bool :=
  match a, b with
  | FileNotFoundError, FileNotFoundError | ValueError, ValueError
  | TypeError, TypeError | StopIteration, StopIteration
  | SMTPAuthenticationError, SMTPAuthenticationError
  | OtherException, OtherException => true
  | _, _ => false
  end.

Inductive outcome (A : Type) : Type :=
| Return (a : A)
| Raise (e : exn).
Arguments Return {A} a.
Arguments Raise {A} e.

(** ** The world and the environment *)

Inductive level : Type := INFO | WARNING | ERROR.

(** Calls that cross the boundary of the orchestrator.  [CallSendEmail]
    marks an invocation of the notifier; the others are calls into the
    Scholar client, [smtplib] and [time]. *)
Inductive event : Type :=
| ScholarSearchId (id : pyval)
| ScholarSearchName (name : pyval)
| ScholarNext
| ScholarFill
| CallSendEmail (subject body : string)
| SmtpConnect (server port : pyval)
| SmtpStartTls
| SmtpLogin (sender password : pyval)
| SmtpSendMessage (subject body : string) (sender receiver : pyval)
| SmtpQuit
| Sleep (seconds : Z).

Record world : Type := World {
  fs : gmap string string;          (* path |-> decoded text of the file *)
  log : list (level * string);      (* lines written through [logging] *)
  trace : list event                (* boundary calls, oldest first *)
}.

(** Where a failing write stops: before the file is opened (nothing
    changes), or after [open(path, 'w')] has truncated it, when the first
    [n] characters of the text have reached the file. *)
Inductive write_stage : Type := AtOpen | AtWrite (n : nat).

(** The answers of the outside world during one cycle. *)
Record oracle : Type := Oracle {
  o_read_fault : option exn;                  (* [open]/[read] failing on an existing path, or any other fault *)
  o_write_fault : option (write_stage * exn);
  o_search_id : outcome author;               (* [search_author_id] *)
  o_search_name : option exn;                 (* [search_author] failing at the call *)
  o_next : outcome author;                    (* [next] on the result generator *)
  o_fill : author -> outcome author;          (* [fill] *)
  o_message : option exn;                     (* building the [EmailMessage] *)
  o_connect : option exn;                     (* [smtplib.SMTP(server, port)] *)
  o_starttls : option exn;
  o_login : option exn;
  o_send : option exn;
  o_quit : option exn;                        (* leaving the [with] block *)
  o_now : string                              (* [time.strftime] *)
}.

(** ** Computations: state and exceptions *)

Definition M (A : Type) : Type := world -> outcome A * world.

Definition ret {A} (a : A) : M A := fun w => (Return a, w).

Definition raise {A} (e : exn) : M A := fun w => (Raise e, w).

Definition bind {A B} (m : M A) (k : A -> M B) : M B :=
  fun w =>
    match m w with
    | (Return a, w') => k a w'
    | (Raise e, w') => (Raise e, w')
    end.

(** [M] is a monad for stdpp's notations [x ← m; k] and [m;; k]. *)
#[global] Instance M_ret : MRet M := @ret.
#[global] Instance M_bind : MBind M := fun A B k m => bind m k.

(** [logging.info], [logging.warning], [logging.error] *)
Definition logging (l : level) (msg : string) : M unit :=
  fun w => (Return tt, World (fs w) (log w ++ [(l, msg)]) (trace w)).

Definition emit (ev : event) : M unit :=
  fun w => (Return tt, World (fs w) (log w) (trace w ++ [ev])).

(** One step of the outside world: record the call, then fail if the
    environment says so. *)
Definition external (ev : event) (fault : option exn) : M unit :=
  emit ev;;
  match fault with Some e => raise e | None => ret tt end.

Definition lift {A} (r : outcome A) : M A :=
  match r with Return a => ret a | Raise e => raise e end.

(** An [except] clause: a class, or [except Exception]. *)
Inductive except_pat : Type :=
| ExceptClass (c : exn_class)
| ExceptException.

Definition pat_matches (p : except_pat) (e : exn) : bool :=
  match p with
  | ExceptClass c => exn_class_eqb c (exn_cls e)
  | ExceptException => true
  end.

(** The first matching clause handles the exception; with none it
    propagates. *)
Fixpoint dispatch {A} (hs : list (except_pat * (exn -> M A))) (e : exn) : M A :=
  match hs with
  | [] => raise e
  | (p, h) :: rest => if pat_matches p e then h e else dispatch rest e
  end.

(** [try: m; k  except ...: hs] where every handler leaves the function:
    [m] is protected by the clauses [hs]; when it returns, [k] goes on. *)
Definition guarded {A B} (m : M A) (hs : list (except_pat * (exn -> M B)))
    (k : A -> M B) : M B :=
  fun w =>
    match m w with
    | (Return a, w') => k a w'
    | (Raise e, w') => dispatch hs e w'
    end.

(** [try: m  except ...: hs] *)
Definition try_except {A} (m : M A) (hs : list (except_pat * (exn -> M A))) : M A :=
  guarded m hs ret.

(** ** The functions of the script *)

Definition nl : string := String (ascii_of_nat 10) EmptyString.

(** [with open(filepath, 'r') as f: f.read()] *)
Definition read_file (o : oracle) (filepath : string) : M string :=
  fun w =>
    match o_read_fault o with
    | Some e => (Raise e, w)
    | None =>
        match fs w !! filepath with
        | Some text => (Return text, w)
        | None => (Raise (Exn FileNotFoundError "No such file or directory"), w)
        end
    end.

(** [open(filepath, 'w')]: the file exists and is empty afterwards. *)
Definition open_write (o : oracle) (filepath : string) : M unit :=
  fun w =>
    match o_write_fault o with
    | Some (AtOpen, e) => (Raise e, w)
    | _ => (Return tt, World (<[filepath := EmptyString]> (fs w)) (log w) (trace w))
    end.

(** [f.write(text)] and the flush on leaving the [with] block. *)
Definition write_text (o : oracle) (filepath text : string) : M unit :=
  fun w =>
    match o_write_fault o with
    | Some (AtWrite n, e) =>
        (Raise e, World (<[filepath := PyStr.take n text]> (fs w)) (log w) (trace w))
    | _ => (Return tt, World (<[filepath := text]> (fs w)) (log w) (trace w))
    end.

(** The [ValueError] of [str] and of an f-string on an integer of more
    than 4300 digits. *)
Definition str_limit_error : exn :=
  Exn ValueError
    "Exceeds the limit (4300 digits) for integer string conversion; use sys.set_int_max_str_digits() to increase the limit".

(** Converting the values [vs] to text, as [str(v)] and an f-string over
    them do: an integer beyond the limit raises. *)
Definition formatting (vs : list pyval) : M unit :=
  if forallb formattable vs then ret tt else raise str_limit_error.

(** The message of the [ValueError] of [int(s)]: the literal is over the
    limit when it is well formed, malformed otherwise (the quoted text is
    cut at 200 characters). *)
Definition int_error (s : string) : string :=
  match PyStr.int_literal s with
  | Some _ =>
      "Exceeds the limit (4300 digits) for integer string conversion: value has "
      +:+ PyStr.str (PyStr.digit_count s)
      +:+ " digits; use sys.set_int_max_str_digits() to increase the limit"
  | None =>
      "invalid literal for int() with base 10: " +:+ PyStr.take 200 (PyStr.repr s)
  end.

(** [int(v)]: a string is parsed, an integer is returned as it is. *)
Definition py_int (v : pyval) : outcome Z :=
  match v with
  | VInt z => Return z
  | VStr s =>
      match PyStr.int s with
      | Some z => Return z
      | None => Raise (Exn ValueError (int_error s))
      end
  | _ => Raise (Exn TypeError
                  ("int() argument must be a string, a bytes-like object or a real number, not '"
                   +:+ type_name v +:+ "'"))
  end.

Definition read_last_count (o : oracle) (filepath : string) : M Z :=
  try_except
    (content ← read_file o filepath;
     let content := PyStr.strip content in
     if negb (PyStr.is_empty content) then
       lift (py_int (VStr content))
     else
       logging INFO ("File " +:+ filepath +:+ " is empty, assuming initial count is 0.");;
       ret 0)
    [ (ExceptClass FileNotFoundError, fun _ =>
         logging INFO ("File " +:+ filepath +:+ " not found, assuming initial count is 0.");;
         ret 0);
      (ExceptClass ValueError, fun _ =>
         logging ERROR ("Could not parse integer from " +:+ filepath +:+ ". Assuming 0.");;
         ret 0);
      (ExceptException, fun e =>
         logging ERROR ("Error reading " +:+ filepath +:+ ": " +:+ exn_msg e +:+ ". Assuming 0.");;
         ret 0) ].

(** The function has no [return] statement: its value is [None] on both
    paths.  [str(count)] is evaluated after the file has been opened. *)
Definition write_last_count (o : oracle) (filepath : string) (count : pyval) : M pyval :=
  try_except
    (open_write o filepath;;
     formatting [count];;
     write_text o filepath (py_str count);;
     formatting [count];;
     logging INFO ("Successfully updated " +:+ filepath +:+ " with count: " +:+ py_str count);;
     ret VNone)
    [ (ExceptException, fun e =>
         logging ERROR ("Error writing to " +:+ filepath +:+ ": " +:+ exn_msg e);;
         ret VNone) ].

(** The tail of the [try] block of [get_citation_count]; [author_info] is
    [None] when no search branch assigned it. *)
Definition citation_result (author_info : option author) : M (pyval * pyval) :=
  match author_info with
  | Some info =>
      if dict_truthy info && dict_has info "citedby" then
        let citations := dict_get info "citedby" VNone in
        formatting [dict_get info "name" (VStr "N/A"); citations];;
        logging INFO ("Found author: " +:+ py_str (dict_get info "name" (VStr "N/A"))
                      +:+ ", Citations: " +:+ py_str citations);;
        ret (dict_get info "name" (VStr "N/A"), citations)
      else
        logging WARNING "Could not find citation info for the author.";;
        ret (if dict_truthy info then dict_get info "name" (VStr "N/A")
             else VStr "Unknown Author", VNone)
  | None =>
      logging WARNING "Could not find citation info for the author.";;
      ret (VStr "Unknown Author", VNone)
  end.

(** The two [except] clauses of [get_citation_count], for the value that
    the local variable [search_query] holds when the exception is raised. *)
Definition lookup_handlers (author_name search_query : pyval)
    : list (except_pat * (exn -> M (pyval * pyval))) :=
  [ (ExceptClass StopIteration, fun _ =>
       logging ERROR ("Author '" +:+ py_str author_name +:+ "' not found.");;
       ret (author_name, VNone));
    (ExceptException, fun e =>
       logging ERROR ("An error occurred while fetching citation data: " +:+ exn_msg e);;
       ret (search_query, VNone)) ].

Definition get_citation_count (o : oracle) (author_name author_id : pyval)
    : M (pyval * pyval) :=
  if negb (truthy author_name) && negb (truthy author_id) then
    logging ERROR "Either author_name or author_id must be provided.";;
    ret (VNone, VNone)
  else if truthy author_id then
    logging INFO ("Searching for author by ID: " +:+ py_str author_id);;
    guarded (emit (ScholarSearchId author_id);; lift (o_search_id o))
      (lookup_handlers author_name VNone) (fun author_info =>
    guarded (emit ScholarFill;; lift (o_fill o author_info))
      (lookup_handlers author_name VNone) (fun author_info =>
    (* search_query = f"ID: {author_id}" *)
    guarded (citation_result (Some author_info))
      (lookup_handlers author_name (VStr ("ID: " +:+ py_str author_id))) ret))
  else if truthy author_name then
    logging INFO ("Searching for author by name: " +:+ py_str author_name);;
    guarded (external (ScholarSearchName author_name) (o_search_name o))
      (lookup_handlers author_name VNone) (fun _ =>
    let search_query := VGen (py_str author_name) in
    guarded (emit ScholarNext;; lift (o_next o))
      (lookup_handlers author_name search_query) (fun author_info =>
    guarded (emit ScholarFill;; lift (o_fill o author_info))
      (lookup_handlers author_name search_query) (fun author_info =>
    (* search_query = f"Name: {author_name}" *)
    guarded (citation_result (Some author_info))
      (lookup_handlers author_name (VStr ("Name: " +:+ py_str author_name))) ret)))
  else
    guarded (citation_result None) (lookup_handlers author_name VNone) ret.

(** [with smtplib.SMTP(...) as smtp_server: block]: leaving the block,
    normally or by an exception, sends QUIT; a failure there replaces the
    block's result. *)
Definition with_smtp {A} (o : oracle) (block : M A) : M A :=
  fun w =>
    match block w with
    | (r, w1) =>
        match external SmtpQuit (o_quit o) w1 with
        | (Return _, w2) => (r, w2)
        | (Raise e, w2) => (Raise e, w2)
        end
    end.

(** The first step records the call in the trace; the script has no
    statement for it. *)
Definition send_email (o : oracle) (subject body : string)
    (sender password receiver server port : pyval) : M bool :=
  emit (CallSendEmail subject body);;
  if negb (forallb truthy [sender; password; receiver; server; port]) then
    logging ERROR "Email configuration is incomplete. Cannot send email.";;
    ret false
  else
    (* msg = EmailMessage(); msg['Subject'] = ...; msg.set_content(body) *)
    match o_message o with Some e => raise e | None => ret tt end;;
    try_except
      (logging INFO ("Connecting to SMTP server " +:+ py_str server +:+ ":" +:+ py_str port);;
       external (SmtpConnect server port) (o_connect o);;
       with_smtp o
         (external SmtpStartTls (o_starttls o);;
          logging INFO "Logging into SMTP server...";;
          external (SmtpLogin sender password) (o_login o);;
          logging INFO ("Sending email to " +:+ py_str receiver +:+ "...");;
          external (SmtpSendMessage subject body sender receiver) (o_send o);;
          logging INFO "Email sent successfully.";;
          ret true))
      [ (ExceptClass SMTPAuthenticationError, fun _ =>
           logging ERROR "SMTP Authentication Error: Check sender email/password (or App Password for Gmail).";;
           ret false);
        (ExceptException, fun e =>
           logging ERROR ("Failed to send email: " +:+ exn_msg e);;
           ret false) ].

(** ** Configuration *)

Record config : Type := Config {
  AUTHOR_NAME : pyval;
  AUTHOR_ID : pyval;
  SMTP_SERVER : pyval;
  SMTP_PORT : Z;
  SENDER_EMAIL : pyval;
  SENDER_PASSWORD : pyval;
  RECEIVER_EMAIL : pyval
}.

Definition LAST_COUNT_FILE : string := "last_citation_count.txt".

(** [os.getenv(key, default)] on the process environment (after
    [load_dotenv]). *)
Definition getenv (environ : gmap string string) (key : string) (dflt : pyval) : pyval :=
  match environ !! key with
  | Some s => VStr s
  | None => dflt
  end.

(** The module-level assignments, run once when the script starts.  The
    only one that can fail is the conversion of the port. *)
Definition load_config (environ : gmap string string) : outcome config :=
  let author_name := getenv environ "AUTHOR_NAME" (VStr "Albert Einstein") in
  let author_id := getenv environ "AUTHOR_ID" VNone in
  let smtp_server := getenv environ "SMTP_SERVER" (VStr "smtp.gmail.com") in
  match py_int (getenv environ "SMTP_PORT" (VInt 587)) with
  | Raise e => Raise e
  | Return smtp_port =>
      Return (Config author_name author_id smtp_server smtp_port
                (getenv environ "SENDER_EMAIL" VNone)
                (getenv environ "SENDER_PASSWORD" VNone)
                (getenv environ "RECEIVER_EMAIL" VNone))
  end.

(** ** The check cycle *)

(** [v > n], [v == n] and [v - n] for a looked-up value [v] and an integer. *)
Definition py_gt (v : pyval) (n : Z) : outcome bool :=
  match v with
  | VInt z => Return (n <? z)
  | _ => Raise (Exn TypeError ("'>' not supported between instances of '"
                               +:+ type_name v +:+ "' and 'int'"))
  end.

Definition py_eq (v : pyval) (n : Z) : bool :=
  match v with
  | VInt z => z =? n
  | _ => false
  end.

Definition py_sub (v : pyval) (n : Z) : outcome Z :=
  match v with
  | VInt z => Return (z - n)
  | _ => Raise (Exn TypeError ("unsupported operand type(s) for -: '"
                               +:+ type_name v +:+ "' and 'int'"))
  end.

(** Lines 152-168: choose the search criterion and look the author up.
    The result is [(search_identifier, (author_display_name, total_citations))]. *)
Definition lookup (cfg : config) (o : oracle) : M (string * (pyval * pyval)) :=
  let target_author_name := AUTHOR_NAME cfg in
  let target_author_id := AUTHOR_ID cfg in
  if truthy target_author_id then
    r ← get_citation_count o VNone target_author_id;
    ret ("ID: " +:+ py_str target_author_id, r)
  else if truthy target_author_name then
    r ← get_citation_count o target_author_name VNone;
    ret ("Name: " +:+ py_str target_author_name, r)
  else
    logging ERROR "No author name or ID provided in environment variables. Skipping check for this cycle.";;
    ret ("N/A", (VStr "N/A", VNone)).

(** The subject and the body of the notice (lines 178-182). *)
Definition increase_subject (author_display_name : pyval) (increase : Z) : string :=
  "Citation Increase for " +:+ py_str author_display_name
  +:+ " (+" +:+ PyStr.str increase +:+ ")".

Definition increase_body (o : oracle) (search_identifier : string)
    (author_display_name total_citations : pyval) (last_count increase : Z) : string :=
  "Author Searched: " +:+ search_identifier +:+ nl
  +:+ "Author Found: " +:+ py_str author_display_name +:+ nl
  +:+ "New Total Citations: " +:+ py_str total_citations
  +:+ " (previously " +:+ PyStr.str last_count
  +:+ ", increase of " +:+ PyStr.str increase +:+ ")" +:+ nl +:+ nl
  +:+ "Checked on: " +:+ o_now o.

(** The call of the notifier on line 184. *)
Definition notify (cfg : config) (o : oracle) (subject body : string) : M bool :=
  send_email o subject body (SENDER_EMAIL cfg) (SENDER_PASSWORD cfg)
    (RECEIVER_EMAIL cfg) (SMTP_SERVER cfg) (VInt (SMTP_PORT cfg)).

(** Lines 170-201: compare, notify, persist. *)
Definition decide_and_act (cfg : config) (o : oracle) (last_count : Z)
    (search_identifier : string) (author_display_name total_citations : pyval) : M unit :=
  if negb (String.eqb search_identifier "N/A") then
    if negb (is_none total_citations) then
      higher ← lift (py_gt total_citations last_count);
      if higher : bool then
        formatting [total_citations; VInt last_count];;
        logging INFO ("New citation count (" +:+ py_str total_citations
                      +:+ ") is higher than the last count (" +:+ PyStr.str last_count
                      +:+ "). Sending email.");;
        increase ← lift (py_sub total_citations last_count);
        (* the f-strings of lines 178, 180 and 181 *)
        formatting [author_display_name; VInt increase];;
        formatting [author_display_name];;
        formatting [total_citations; VInt last_count; VInt increase];;
        let subject := increase_subject author_display_name increase in
        let body := increase_body o search_identifier author_display_name
                      total_citations last_count increase in
        email_sent ← notify cfg o subject body;
        if email_sent : bool then
          write_last_count o LAST_COUNT_FILE total_citations;;
          ret tt
        else
          logging ERROR "Email failed to send. Last count file will not be updated."
      else if py_eq total_citations last_count then
        formatting [total_citations];;
        logging INFO ("Citation count (" +:+ py_str total_citations
                      +:+ ") has not changed since the last check.")
      else
        formatting [total_citations; VInt last_count];;
        logging WARNING ("Citation count (" +:+ py_str total_citations
                         +:+ ") is lower than the last known count (" +:+ PyStr.str last_count
                         +:+ "). Not sending email, but updating count file.");;
        write_last_count o LAST_COUNT_FILE total_citations;;
        ret tt
    else
      logging WARNING ("Could not retrieve citation count for " +:+ search_identifier
                       +:+ ". No comparison or email sent this cycle.")
  else
    ret tt.

(** The body of the [try] in the loop. *)
Definition check (cfg : config) (o : oracle) : M unit :=
  logging INFO "--- Starting Hourly Citation Check ---";;
  last_count ← read_last_count o LAST_COUNT_FILE;
  formatting [VInt last_count];;
  logging INFO ("Last known citation count: " +:+ PyStr.str last_count);;
  r ← lookup cfg o;
  decide_and_act cfg o last_count r.1 r.2.1 r.2.2;;
  logging INFO "--- Citation Check Cycle Finished ---".

(** One iteration of [while True]. *)
Definition cycle (cfg : config) (o : oracle) : M unit :=
  try_except (check cfg o)
    [ (ExceptException, fun e =>
         logging ERROR ("An unexpected error occurred during the check cycle: " +:+ exn_msg e);;
         logging ERROR "Script will continue to the next cycle after the delay.") ];;
  logging INFO "Waiting for 1 hour before next check...";;
  emit (Sleep 3600).

(** The loop, for as many iterations as there are oracles. *)
Fixpoint run (cfg : config) (os : list oracle) : M unit :=
  match os with
  | [] => ret tt
  | o :: rest => cycle cfg o;; run cfg rest
  end.

(** The script: module-level configuration, then the loop. *)
Definition main (environ : gmap string string) (os : list oracle) : M unit :=
  cfg ← lift (load_config environ);
  run cfg os.

(** ** Observations *)

Definition eval {A} (m : M A) (w : world) : outcome A := (m w).1.
Definition exec {A} (m : M A) (w : world) : world := (m w).2.

(** An environment in which nothing fails; the Scholar client finds the
    given author record. *)
Definition calm (found : author) : oracle :=
  Oracle None None (Return found) None (Return found) (fun a => Return a)
         None None None None None None "2024-01-01 00:00:00".

(** The persisted count of a world: what a read of the count file returns
    when no I/O fault is injected. *)
Definition persisted (w : world) : Z :=
  match eval (read_last_count (calm ∅) LAST_COUNT_FILE) w with
  | Return z => z
  | Raise _ => 0
  end.

(** The events a computation adds to the trace. *)
Definition new_events {A} (m : M A) (w : world) : list event :=
  drop (length (trace w)) (trace (exec m w)).

Definition new_log {A} (m : M A) (w : world) : list (level * string) :=
  drop (length (log w)) (log (exec m w)).

Definition is_notifier_event (ev : event) : bool :=
  match ev with
  | CallSendEmail _ _ | SmtpConnect _ _ | SmtpStartTls | SmtpLogin _ _
  | SmtpSendMessage _ _ _ _ | SmtpQuit => true
  | _ => false
  end.

(** ** Sample data *)

Module Sample.

Definition ada (citedby : Z) : author :=
  {[ "name" := VStr "Ada Lovelace"; "citedby" := VInt citedby ]}.

Definition cfg : config :=
  Config (VStr "Ada Lovelace") VNone (VStr "smtp.gmail.com") 587
         (VStr "me@example.org") (VStr "app-password") (VStr "you@example.org").

Definition stored (text : string) : world :=
  World {[ LAST_COUNT_FILE := text ]} [] [].

Definition empty_world : world := World ∅ [] [].

(** The disk fills up after [open(path, 'w')] has truncated the file. *)
Definition disk_full (found : author) : oracle :=
  Oracle None (Some (AtWrite 0, Exn OtherException "No space left on device"))
         (Return found) None (Return found) (fun a => Return a)
         None None None None None None "2024-01-01 00:00:00".

Definition no_write (found : author) : oracle :=
  Oracle None (Some (AtOpen, Exn OtherException "Permission denied"))
         (Return found) None (Return found) (fun a => Return a)
         None None None None None None "2024-01-01 00:00:00".

Definition bad_login (found : author) : oracle :=
  Oracle None None (Return found) None (Return found) (fun a => Return a)
         None None None (Some (Exn SMTPAuthenticationError "535 bad credentials"))
         None None "2024-01-01 00:00:00".

Definition not_found : oracle :=
  Oracle None None (Return ∅) None (Raise (Exn StopIteration "")) (fun a => Return a)
         None None None None None None "2024-01-01 00:00:00".

End Sample.

(** ** Computations that only report *)

(** [writes m r dl dt]: in every world, [m] ends with [r], leaves the files
    alone, and appends [dl] to the log and [dt] to the trace. *)
Definition writes {A} (m : M A) (r : outcome A)
    (dl : list (level * string)) (dt : list event) : Prop :=
  forall w, m w = (r, World (fs w) (log w ++ dl) (trace w ++ dt)).

(** [reports P m]: [m] only reports, and every event it adds satisfies [P]. *)
Definition reports {A} (P : event -> Prop) (m : M A) : Prop :=
  exists r dl dt, writes m r dl dt /\ Forall P dt.

Definition is_scholar_event (ev : event) : bool :=
  match ev with
  | ScholarSearchId _ | ScholarSearchName _ | ScholarNext | ScholarFill => true
  | _ => false
  end.

(** The Scholar client raises [e] during [get_citation_count]: which call
    fails, for the branch taken. *)
Inductive lookup_raises (o : oracle) (author_name author_id : pyval) (e : exn) : Prop :=
| raises_search_id :
    truthy author_id = true -> o_search_id o = Raise e ->
    lookup_raises o author_name author_id e
| raises_fill_id info :
    truthy author_id = true -> o_search_id o = Return info -> o_fill o info = Raise e ->
    lookup_raises o author_name author_id e
| raises_search_name :
    truthy author_id = false -> truthy author_name = true -> o_search_name o = Some e ->
    lookup_raises o author_name author_id e
| raises_next :
    truthy author_id = false -> truthy author_name = true -> o_search_name o = None ->
    o_next o = Raise e ->
    lookup_raises o author_name author_id e
| raises_fill_name info :
    truthy author_id = false -> truthy author_name = true -> o_search_name o = None ->
    o_next o = Return info -> o_fill o info = Raise e ->
    lookup_raises o author_name author_id e.

(** The end of an iteration, from the result of the comparison step: the
    closing log line or the lines of the outer [except], then the sleep. *)
Definition wind_up (res : outcome unit * world) : world :=
  let w := res.2 in
  match res.1 with
  | Return _ =>
      World (fs w)
            (log w ++ [ (INFO, "--- Citation Check Cycle Finished ---");
                        (INFO, "Waiting for 1 hour before next check...") ])
            (trace w ++ [Sleep 3600])
  | Raise e =>
      World (fs w)
            (log w ++ [ (ERROR, "An unexpected error occurred during the check cycle: "
                                +:+ exn_msg e);
                        (ERROR, "Script will continue to the next cycle after the delay.");
                        (INFO, "Waiting for 1 hour before next check...") ])
            (trace w ++ [Sleep 3600])
  end.

(** The files after a write, fault by fault. *)
Definition written (o : oracle) (text : string) (f : gmap string string)
    : gmap string string :=
  match o_write_fault o with
  | None => <[LAST_COUNT_FILE := text]> f
  | Some (AtOpen, _) => f
  | Some (AtWrite n, _) => <[LAST_COUNT_FILE := PyStr.take n text]> f
  end.

(** Auxiliary definitions for the proofs about decimal text. *)

(** Left-to-right value of a decimal numeral, from the accumulator [acc]. *)
Fixpoint uint_value (d : Decimal.uint) (acc : Z) : Z :=
  match d with
  | Decimal.Nil => acc
  | Decimal.D0 l => uint_value l (10 * acc + 0)
  | Decimal.D1 l => uint_value l (10 * acc + 1)
  | Decimal.D2 l => uint_value l (10 * acc + 2)
  | Decimal.D3 l => uint_value l (10 * acc + 3)
  | Decimal.D4 l => uint_value l (10 * acc + 4)
  | Decimal.D5 l => uint_value l (10 * acc + 5)
  | Decimal.D6 l => uint_value l (10 * acc + 6)
  | Decimal.D7 l => uint_value l (10 * acc + 7)
  | Decimal.D8 l => uint_value l (10 * acc + 8)
  | Decimal.D9 l => uint_value l (10 * acc + 9)
  end.

Definition is_digit (c : ascii) : bool :=
  match PyStr.digit_of c with Some _ => true | None => false end.

Fixpoint all_chars (p : ascii -> bool) (s : string) : bool :=
  match s with
  | EmptyString => true
  | String c r => p c && all_chars p r
  end.

(** ** Further observations *)

Definition is_sleep (ev : event) : bool :=
  match ev with Sleep _ => true | _ => false end.

(** The Scholar client answers the lookup with the record [info]: every
    call of the branch taken succeeds and [fill] returns [info]. *)
Inductive lookup_finds (o : oracle) (author_name author_id : pyval) (info : author) : Prop :=
| finds_by_id found :
    truthy author_id = true ->
    o_search_id o = Return found -> o_fill o found = Return info ->
    lookup_finds o author_name author_id info
| finds_by_name found :
    truthy author_id = false -> truthy author_name = true ->
    o_search_name o = None -> o_next o = Return found -> o_fill o found = Return info ->
    lookup_finds o author_name author_id info.

(** The calls of a lookup, answer by answer. *)
Definition scholar_calls (o : oracle) (author_name author_id : pyval) : list event :=
  if truthy author_id then
    ScholarSearchId author_id ::
    match o_search_id o with
    | Return _ => [ScholarFill]
    | Raise _ => []
    end
  else if truthy author_name then
    ScholarSearchName author_name ::
    match o_search_name o with
    | Some _ => []
    | None =>
        ScholarNext ::
        match o_next o with
        | Return _ => [ScholarFill]
        | Raise _ => []
        end
    end
  else [].

(** The SMTP dialogue of one notice, in order. *)
Definition smtp_dialogue (subject body : string) (sender password receiver server port : pyval)
    : list event :=
  [ SmtpConnect server port; SmtpStartTls; SmtpLogin sender password;
    SmtpSendMessage subject body sender receiver; SmtpQuit ].

(** The world before anything has happened, with the given files. *)
Definition fresh (files : gmap string string) : world := World files [] [].

(** * Properties *)

(** ** Examples: the model on concrete inputs *)

Example int_examples :
  PyStr.int " 42 " = Some 42 /\ PyStr.int "-5" = Some (-5) /\
  PyStr.int "1_000" = Some 1000 /\ PyStr.int "1__0" = None /\
  PyStr.int "_1" = None /\ PyStr.int "1_" = None /\ PyStr.int "" = None /\
  PyStr.int "+-5" = None /\ PyStr.int "- 5" = None /\ PyStr.int "007" = Some 7 /\
  PyStr.int "12a" = None /\ PyStr.int "-" = None /\ PyStr.int "1 2" = None.
Proof. repeat split; reflexivity. Qed.

Example str_examples :
  PyStr.str 0 = "0" /\ PyStr.str 15 = "15" /\ PyStr.str (-8) = "-8".
Proof. repeat split; reflexivity. Qed.

(** [strip] removes the separators 28..31 that [int] alone rejects. *)
Example strip_before_int :
  let text := String (ascii_of_nat 28) "5" in
  PyStr.int text = None /\ PyStr.int (PyStr.strip text) = Some 5 /\
  eval (read_last_count (calm ∅) LAST_COUNT_FILE) (Sample.stored text) = Return 5.
Proof. vm_compute. repeat split; reflexivity. Qed.

Example strip_latin1_blanks :
  PyStr.strip (String (ascii_of_nat 160) ("12" +:+ String (ascii_of_nat 133) " ")) = "12".
Proof. reflexivity. Qed.

(** The scenarios listed with the testable properties of the script. *)
Example scenario_increase :
  let w' := exec (cycle Sample.cfg (calm (Sample.ada 15))) (Sample.stored "10") in
  persisted w' = 15 /\
  trace w' =
    [ ScholarSearchName (VStr "Ada Lovelace"); ScholarNext; ScholarFill;
      CallSendEmail "Citation Increase for Ada Lovelace (+5)"
        ("Author Searched: Name: Ada Lovelace" +:+ nl +:+
         "Author Found: Ada Lovelace" +:+ nl +:+
         "New Total Citations: 15 (previously 10, increase of 5)" +:+ nl +:+ nl +:+
         "Checked on: 2024-01-01 00:00:00");
      SmtpConnect (VStr "smtp.gmail.com") (VInt 587); SmtpStartTls;
      SmtpLogin (VStr "me@example.org") (VStr "app-password");
      SmtpSendMessage "Citation Increase for Ada Lovelace (+5)"
        ("Author Searched: Name: Ada Lovelace" +:+ nl +:+
         "Author Found: Ada Lovelace" +:+ nl +:+
         "New Total Citations: 15 (previously 10, increase of 5)" +:+ nl +:+ nl +:+
         "Checked on: 2024-01-01 00:00:00")
        (VStr "me@example.org") (VStr "you@example.org");
      SmtpQuit; Sleep 3600 ].
Proof. vm_compute. split; reflexivity. Qed.

Example scenario_bad_credential :
  persisted (exec (cycle Sample.cfg (Sample.bad_login (Sample.ada 15))) (Sample.stored "10")) = 10.
Proof. vm_compute. reflexivity. Qed.

(** A write that fails after the file was truncated leaves an empty file,
    which reads as 0. *)
Example scenario_disk_full :
  let w' := exec (cycle Sample.cfg (Sample.disk_full (Sample.ada 15))) (Sample.stored "10") in
  fs w' !! LAST_COUNT_FILE = Some EmptyString /\ persisted w' = 0.
Proof. vm_compute. split; reflexivity. Qed.

(** A write that fails part-way leaves the characters that were written:
    of the count 15, the text 1. *)
Example scenario_partial_write :
  let o := Oracle None (Some (AtWrite 1, Exn OtherException "No space left on device"))
                  (Return ∅) None (Return ∅) (fun a => Return a)
                  None None None None None None "2024-01-01 00:00:00" in
  let w' := exec (write_last_count o LAST_COUNT_FILE (VInt 15)) (Sample.stored "10") in
  fs w' !! LAST_COUNT_FILE = Some "1" /\ persisted w' = 1 /\
  new_log (write_last_count o LAST_COUNT_FILE (VInt 15)) (Sample.stored "10") =
    [(ERROR, "Error writing to last_citation_count.txt: No space left on device")].
Proof. vm_compute. repeat split; reflexivity. Qed.

(** The limit of 4300 digits, on both conversions. *)
Example digit_limit :
  PyStr.fits (10 ^ 4300 - 1) = true /\ PyStr.fits (10 ^ 4300) = false /\
  PyStr.int (PyStr.str (10 ^ 4300)) = None.
Proof. vm_compute. repeat split; reflexivity. Qed.

Example int_messages :
  py_int (VStr " 12x ") =
    Raise (Exn ValueError "invalid literal for int() with base 10: ' 12x '") /\
  py_int (VStr "it's") =
    Raise (Exn ValueError
             ("invalid literal for int() with base 10: "
              +:+ String PyStr.dquote ("it's" +:+ String PyStr.dquote EmptyString))) /\
  py_int (VStr (String (ascii_of_nat 9) "x")) =
    Raise (Exn ValueError
             ("invalid literal for int() with base 10: '"
              +:+ String PyStr.backslash "tx'")) /\
  py_gt (VStr "many") 10 =
    Raise (Exn TypeError "'>' not supported between instances of 'str' and 'int'").
Proof. vm_compute. repeat split; reflexivity. Qed.

Example scenario_decrease :
  let w' := exec (cycle Sample.cfg (calm (Sample.ada 8))) (Sample.stored "10") in
  persisted w' = 8 /\ filter (fun ev => is_notifier_event ev = true) (trace w') = [].
Proof. vm_compute. split; reflexivity. Qed.

Example scenario_not_found :
  let w' := exec (cycle Sample.cfg Sample.not_found) (Sample.stored "10") in
  fs w' = fs (Sample.stored "10") /\
  new_log (cycle Sample.cfg Sample.not_found) (Sample.stored "10") =
    [ (INFO, "--- Starting Hourly Citation Check ---");
      (INFO, "Last known citation count: 10");
      (INFO, "Searching for author by name: Ada Lovelace");
      (ERROR, "Author 'Ada Lovelace' not found.");
      (WARNING, "Could not retrieve citation count for Name: Ada Lovelace. No comparison or email sent this cycle.");
      (INFO, "--- Citation Check Cycle Finished ---");
      (INFO, "Waiting for 1 hour before next check...") ].
Proof. vm_compute. split; reflexivity. Qed.

(** ** Decimal text *)

Section DecimalText.

Lemma digit_facts c :
  is_digit c = true ->
  Ascii.eqb c "_" = false /\ Ascii.eqb c "-" = false /\ Ascii.eqb c "+" = false /\
  PyStr.isspace c = false /\ PyStr.int_space c = false.
Proof.
  destruct c as [[] [] [] [] [] [] [] []]; vm_compute; intros H;
    try discriminate H; repeat split.
Qed.

Lemma uint_digits d : all_chars is_digit (NilEmpty.string_of_uint d) = true.
Proof. induction d; simpl; auto. Qed.

Lemma scan_uint d : forall acc,
  PyStr.scan_digits (NilEmpty.string_of_uint d) acc false = Some (uint_value d acc).
Proof. induction d; intros acc; simpl; auto. Qed.

Lemma uint_value_pos d : forall p,
  uint_value d (Z.pos p) = Z.pos (Pos.of_uint_acc d p).
Proof.
  induction d; intros p; simpl; auto;
    match goal with
    | |- uint_value _ ?a = Z.pos (Pos.of_uint_acc _ ?q) =>
        replace a with (Z.pos q) by lia; apply IHd
    end.
Qed.

Lemma uint_value_0 d : uint_value d 0 = Z.of_uint d.
Proof.
  unfold Z.of_uint. induction d; simpl; auto;
    match goal with
    | |- uint_value _ ?a = _ => change a with (Z.pos (Z.to_pos a)); apply uint_value_pos
    end.
Qed.

Lemma lstrip_keep p c r : p c = false -> PyStr.lstrip p (String c r) = String c r.
Proof. intros H. simpl. now rewrite H. Qed.

Lemma rstrip_keep p s :
  all_chars (fun c => negb (p c)) s = true -> PyStr.rstrip p s = s.
Proof.
  induction s as [|c r IH]; simpl; auto.
  intros [Hc Hr]%andb_true_iff. rewrite (IH Hr).
  apply negb_true_iff in Hc. rewrite Hc, andb_false_r. reflexivity.
Qed.

Lemma strip_keep p s :
  all_chars (fun c => negb (p c)) s = true -> PyStr.strip_with p s = s.
Proof.
  intros H. unfold PyStr.strip_with. destruct s as [|c r]; auto.
  simpl in H. apply andb_true_iff in H as [Hc Hr].
  rewrite lstrip_keep by now apply negb_true_iff.
  apply rstrip_keep. simpl. now rewrite Hc, Hr.
Qed.

Lemma all_chars_impl (p q : ascii -> bool) s :
  (forall c, p c = true -> q c = true) ->
  all_chars p s = true -> all_chars q s = true.
Proof.
  intros Hpq. induction s as [|c r IH]; simpl; auto.
  intros [Hc Hr]%andb_true_iff. rewrite (Hpq _ Hc), (IH Hr). reflexivity.
Qed.

Lemma digit_count_uint d :
  PyStr.digit_count (NilEmpty.string_of_uint d) = Z.of_nat (Decimal.nb_digits d).
Proof.
  induction d; cbn [NilEmpty.string_of_uint Decimal.nb_digits]; [reflexivity|..];
    rewrite Nat2Z.inj_succ; cbn [PyStr.digit_count];
    match goal with
    | |- context [PyStr.digit_of ?c] =>
        let v := eval vm_compute in (PyStr.digit_of c) in
        change (PyStr.digit_of c) with v
    end;
    cbv iota; rewrite IHd; lia.
Qed.

Lemma uint_value_acc d : forall acc,
  uint_value d acc = acc * 10 ^ Z.of_nat (Decimal.nb_digits d) + uint_value d 0.
Proof.
  induction d; intros acc; cbn [uint_value Decimal.nb_digits];
    [rewrite Z.pow_0_r; lia | ..];
    rewrite Nat2Z.inj_succ, Z.pow_succ_r by lia;
    rewrite (IHd (10 * acc + _)), (IHd (10 * 0 + _)); ring.
Qed.

Lemma uint_value_bound d :
  0 <= uint_value d 0 < 10 ^ Z.of_nat (Decimal.nb_digits d).
Proof.
  induction d; cbn [uint_value Decimal.nb_digits];
    [rewrite Z.pow_0_r; lia | ..];
    rewrite Nat2Z.inj_succ, Z.pow_succ_r by lia;
    rewrite uint_value_acc; lia.
Qed.

Lemma nzhead_head d :
  match Decimal.nzhead d with Decimal.D0 _ => False | _ => True end.
Proof. induction d; cbn [Decimal.nzhead]; auto. Qed.

Lemma unorm_head d u : Decimal.unorm d = Decimal.D0 u -> u = Decimal.Nil.
Proof.
  unfold Decimal.unorm. pose proof (nzhead_head d) as H.
  destruct (Decimal.nzhead d); try congruence. contradiction.
Qed.

(** The numeral of a positive number has no leading zero. *)
Lemma to_uint_head p :
  match Pos.to_uint p with
  | Decimal.Nil | Decimal.D0 _ => False
  | _ => True
  end.
Proof.
  pose proof (Unsigned.to_of (Pos.to_uint p)) as H.
  rewrite Unsigned.of_to in H. cbn [N.to_uint] in H.
  pose proof (Unsigned.to_uint_nonzero p) as Hz.
  pose proof (Unsigned.to_uint_nonnil p) as Hn.
  destruct (Pos.to_uint p) as [|l|l|l|l|l|l|l|l|l|l]; try exact I.
  - now apply Hn.
  - symmetry in H. apply unorm_head in H. subst l. now apply Hz.
Qed.

Lemma uint_value_lower p :
  10 ^ (Z.of_nat (Decimal.nb_digits (Pos.to_uint p)) - 1) <= uint_value (Pos.to_uint p) 0.
Proof.
  pose proof (to_uint_head p) as H.
  destruct (Pos.to_uint p) as [|l|l|l|l|l|l|l|l|l|l]; try contradiction;
    cbn [uint_value Decimal.nb_digits]; rewrite Nat2Z.inj_succ, uint_value_acc;
    replace (Z.succ (Z.of_nat (Decimal.nb_digits l)) - 1) with (Z.of_nat (Decimal.nb_digits l)) by lia;
    pose proof (uint_value_bound l);
    pose proof (Z.pow_pos_nonneg 10 (Z.of_nat (Decimal.nb_digits l)) ltac:(lia) ltac:(lia));
    lia.
Qed.

End DecimalText.

Section IntStr.

Lemma str_pos p : PyStr.str (Z.pos p) = NilEmpty.string_of_uint (Pos.to_uint p).
Proof.
  unfold PyStr.str. simpl. unfold NilZero.string_of_uint.
  pose proof (Unsigned.to_uint_nonnil p) as H.
  destruct (Pos.to_uint p); congruence.
Qed.

Lemma str_neg p :
  PyStr.str (Z.neg p) = String "-" (NilEmpty.string_of_uint (Pos.to_uint p)).
Proof.
  unfold PyStr.str. simpl. unfold NilZero.string_of_uint.
  pose proof (Unsigned.to_uint_nonnil p) as H.
  destruct (Pos.to_uint p); congruence.
Qed.

Lemma uint_text_nonempty p :
  exists c r, NilEmpty.string_of_uint (Pos.to_uint p) = String c r /\ is_digit c = true.
Proof.
  pose proof (Unsigned.to_uint_nonnil p) as H.
  destruct (Pos.to_uint p); [congruence | simpl; eauto ..].
Qed.

Lemma int_body_uint p :
  PyStr.int_body (NilEmpty.string_of_uint (Pos.to_uint p)) = Some (Z.pos p).
Proof.
  destruct (uint_text_nonempty p) as (c & r & E & Hc).
  unfold PyStr.int_body. rewrite E.
  destruct (digit_facts c Hc) as (-> & _). rewrite <- E, scan_uint, uint_value_0.
  unfold Z.of_uint. now rewrite Unsigned.of_to.
Qed.

Lemma uint_no_space (p : ascii -> bool) d :
  (forall c, is_digit c = true -> p c = false) ->
  all_chars (fun c => negb (p c)) (NilEmpty.string_of_uint d) = true.
Proof.
  intros Hp. apply (all_chars_impl is_digit); [|apply uint_digits].
  intros c Hc. now rewrite (Hp c Hc).
Qed.

(** [str] produces no white space, so stripping leaves it alone. *)
Lemma strip_with_str p z :
  (forall c, is_digit c = true -> p c = false) -> p "-"%char = false ->
  PyStr.strip_with p (PyStr.str z) = PyStr.str z.
Proof.
  intros Hd Hm. apply strip_keep. destruct z as [|q|q].
  - cbn. rewrite Hd by reflexivity. reflexivity.
  - rewrite str_pos. now apply uint_no_space.
  - rewrite str_neg. cbn [all_chars]. rewrite Hm. now apply uint_no_space.
Qed.

Lemma strip_str z : PyStr.strip (PyStr.str z) = PyStr.str z.
Proof.
  apply strip_with_str; [|reflexivity]. intros c Hc. apply (digit_facts c Hc).
Qed.

Lemma str_nonempty z : PyStr.is_empty (PyStr.str z) = false.
Proof.
  destruct z as [|q|q]; [reflexivity | |].
  - rewrite str_pos. destruct (uint_text_nonempty q) as (c & r & -> & _). reflexivity.
  - rewrite str_neg. reflexivity.
Qed.

(** Parsing the text of an integer gives the integer back. *)
Lemma int_literal_str z : PyStr.int_literal (PyStr.str z) = Some z.
Proof.
  unfold PyStr.int_literal.
  rewrite strip_with_str; [|intros c Hc; apply (digit_facts c Hc)|reflexivity].
  destruct z as [|q|q]; [reflexivity | |].
  - rewrite str_pos. destruct (uint_text_nonempty q) as (c & r & E & Hc).
    rewrite E. destruct (digit_facts c Hc) as (_ & -> & -> & _).
    rewrite <- E. apply int_body_uint.
  - rewrite str_neg. cbn [Ascii.eqb Bool.eqb]. cbn match.
    rewrite int_body_uint. reflexivity.
Qed.

Lemma too_long_str z : PyStr.too_long (PyStr.str z) = negb (PyStr.fits z).
Proof. unfold PyStr.too_long, PyStr.fits. now rewrite Z.leb_antisym, negb_involutive. Qed.

Lemma int_str z : PyStr.fits z = true -> PyStr.int (PyStr.str z) = Some z.
Proof. intros H. unfold PyStr.int. now rewrite int_literal_str, too_long_str, H. Qed.

(** Beyond the limit the text of an integer is not read back. *)
Lemma int_str_too_long z : PyStr.fits z = false -> PyStr.int (PyStr.str z) = None.
Proof. intros H. unfold PyStr.int. now rewrite int_literal_str, too_long_str, H. Qed.

Lemma int_Some s z :
  PyStr.int s = Some z -> PyStr.int_literal s = Some z /\ PyStr.too_long s = false.
Proof.
  unfold PyStr.int. destruct (PyStr.int_literal s); [|discriminate].
  destruct (PyStr.too_long s); [discriminate|]. now intros [= ->].
Qed.

(** The number of digits of the text of an integer, and the integers
    within the limit. *)
Lemma pos_value p : uint_value (Pos.to_uint p) 0 = Z.pos p.
Proof. rewrite uint_value_0. unfold Z.of_uint. now rewrite Unsigned.of_to. Qed.

Lemma digit_count_str z :
  PyStr.digit_count (PyStr.str z) =
  match z with
  | 0 => 1
  | Z.pos p | Z.neg p => Z.of_nat (Decimal.nb_digits (Pos.to_uint p))
  end.
Proof.
  destruct z as [|p|p]; [reflexivity | |].
  - now rewrite str_pos, digit_count_uint.
  - rewrite str_neg. cbn [PyStr.digit_count].
    change (PyStr.digit_of "-") with (@None Z). cbv iota. apply digit_count_uint.
Qed.

Lemma pos_digits p :
  let n := Z.of_nat (Decimal.nb_digits (Pos.to_uint p)) in
  10 ^ (n - 1) <= Z.pos p < 10 ^ n.
Proof.
  cbv zeta. pose proof (uint_value_lower p). pose proof (uint_value_bound (Pos.to_uint p)).
  rewrite pos_value in *. lia.
Qed.

Lemma fits_iff z : PyStr.fits z = true <-> Z.abs z < 10 ^ PyStr.max_str_digits.
Proof.
  unfold PyStr.fits. rewrite Z.leb_le, digit_count_str.
  assert (Hm : 0 <= PyStr.max_str_digits) by (unfold PyStr.max_str_digits; lia).
  assert (H1 : 1 <= PyStr.max_str_digits) by (unfold PyStr.max_str_digits; lia).
  generalize dependent PyStr.max_str_digits. intros m Hm H1.
  pose proof (Z.pow_pos_nonneg 10 m ltac:(lia) Hm) as Hpos.
  destruct z as [|p|p]; cbn [Z.abs]; [lia | |].
  all: pose proof (pos_digits p) as Hp; cbv zeta in Hp;
    set (n := Z.of_nat (Decimal.nb_digits (Pos.to_uint p))) in *;
    split; intros H;
    [ pose proof (Z.pow_le_mono_r 10 n m ltac:(lia) H); lia
    | destruct (Z.le_gt_cases n m) as [|Hgt]; [assumption|];
      pose proof (Z.pow_le_mono_r 10 m (n - 1) ltac:(lia) ltac:(lia)); lia ].
Qed.

Lemma scan_digits_nonneg s : forall acc us z,
  0 <= acc -> PyStr.scan_digits s acc us = Some z -> 0 <= z.
Proof.
  induction s as [|c r IH]; intros acc us z Hacc; simpl.
  - destruct us; congruence.
  - destruct (Ascii.eqb c "_").
    + destruct us; [discriminate | now apply IH].
    + unfold PyStr.digit_of.
      destruct ((48 <=? PyStr.ord c) && (PyStr.ord c <=? 57)) eqn:E; [|discriminate].
      apply IH. lia.
Qed.

Lemma int_body_nonneg s z : PyStr.int_body s = Some z -> 0 <= z.
Proof.
  unfold PyStr.int_body. destruct s as [|c r]; [discriminate|].
  destruct (Ascii.eqb c "_"); [discriminate|]. now apply scan_digits_nonneg.
Qed.

(** A negative result needs a minus sign in front of the literal. *)
Lemma int_negative s z :
  PyStr.int s = Some z -> z < 0 ->
  exists r, PyStr.strip_with PyStr.int_space s = String "-" r.
Proof.
  intros H. apply int_Some in H as [H _]. revert H.
  unfold PyStr.int_literal.
  destruct (PyStr.strip_with PyStr.int_space s) as [|c r]; [discriminate|].
  destruct (Ascii.eqb c "-") eqn:Em.
  - apply Ascii.eqb_eq in Em as ->. eauto.
  - intros H Hz. exfalso.
    destruct (Ascii.eqb c "+"); apply int_body_nonneg in H; lia.
Qed.

(** A literal of [k] digits is below [10 ^ k] in absolute value. *)
Lemma digit_count_nonneg s : 0 <= PyStr.digit_count s.
Proof.
  induction s as [|c r IH]; cbn [PyStr.digit_count]; [lia|].
  destruct (PyStr.digit_of c); lia.
Qed.

Lemma digit_count_tail c r : PyStr.digit_count r <= PyStr.digit_count (String c r).
Proof. cbn [PyStr.digit_count]. destruct (PyStr.digit_of c); lia. Qed.

Lemma digit_count_lstrip p s : PyStr.digit_count (PyStr.lstrip p s) <= PyStr.digit_count s.
Proof.
  induction s as [|c r IH]; cbn [PyStr.lstrip]; [lia|].
  destruct (p c); [|lia]. pose proof (digit_count_tail c r). lia.
Qed.

Lemma digit_count_rstrip p s : PyStr.digit_count (PyStr.rstrip p s) <= PyStr.digit_count s.
Proof.
  induction s as [|c r IH]; cbn [PyStr.rstrip]; [lia|].
  destruct (PyStr.is_empty (PyStr.rstrip p r) && p c).
  - pose proof (digit_count_nonneg (String c r)).
    change (PyStr.digit_count EmptyString) with 0. lia.
  - cbn [PyStr.digit_count]. destruct (PyStr.digit_of c); lia.
Qed.

Lemma digit_count_strip_with p s :
  PyStr.digit_count (PyStr.strip_with p s) <= PyStr.digit_count s.
Proof.
  unfold PyStr.strip_with.
  pose proof (digit_count_rstrip p (PyStr.lstrip p s)). pose proof (digit_count_lstrip p s). lia.
Qed.

Lemma digit_of_range c d : PyStr.digit_of c = Some d -> 0 <= d <= 9.
Proof.
  unfold PyStr.digit_of.
  destruct ((48 <=? PyStr.ord c) && (PyStr.ord c <=? 57)) eqn:E; [|discriminate].
  intros [= <-]. apply andb_prop in E as [E1 E2]. lia.
Qed.

Lemma scan_digits_bound s : forall acc us z,
  0 <= acc -> PyStr.scan_digits s acc us = Some z ->
  z < (acc + 1) * 10 ^ PyStr.digit_count s.
Proof.
  induction s as [|c r IH]; intros acc us z Hacc; cbn [PyStr.scan_digits PyStr.digit_count].
  - destruct us; [discriminate|]. intros [= <-]. rewrite Z.pow_0_r. lia.
  - destruct (Ascii.eqb c "_") eqn:Eu.
    + apply Ascii.eqb_eq in Eu as ->. change (PyStr.digit_of "_") with (@None Z). cbv iota.
      destruct us; [discriminate | now apply IH].
    + destruct (PyStr.digit_of c) as [d|] eqn:Ed; [|discriminate].
      pose proof (digit_of_range c d Ed) as Hd. intros H.
      apply IH in H; [|lia].
      pose proof (digit_count_nonneg r) as Hn.
      replace (1 + PyStr.digit_count r) with (Z.succ (PyStr.digit_count r)) by lia.
      rewrite Z.pow_succ_r by assumption.
      pose proof (Z.pow_pos_nonneg 10 (PyStr.digit_count r) ltac:(lia) Hn). nia.
Qed.

Lemma int_body_bound s z : PyStr.int_body s = Some z -> 0 <= z < 10 ^ PyStr.digit_count s.
Proof.
  intros H. split; [now apply (int_body_nonneg s)|]. revert H.
  unfold PyStr.int_body. destruct s as [|c r]; [discriminate|].
  destruct (Ascii.eqb c "_"); [discriminate|]. intros H.
  apply scan_digits_bound in H; lia.
Qed.

Lemma int_literal_bound s z :
  PyStr.int_literal s = Some z -> Z.abs z < 10 ^ PyStr.digit_count s.
Proof.
  unfold PyStr.int_literal. pose proof (digit_count_strip_with PyStr.int_space s) as Hs.
  destruct (PyStr.strip_with PyStr.int_space s) as [|c r]; [discriminate|].
  pose proof (digit_count_tail c r) as Ht.
  assert (Hmono : forall k, 0 <= k -> k <= PyStr.digit_count s ->
                            10 ^ k <= 10 ^ PyStr.digit_count s)
    by (intros k _ Hk; apply Z.pow_le_mono_r; lia).
  pose proof (digit_count_nonneg r) as Hr.
  pose proof (digit_count_nonneg (String c r)) as Hcr.
  destruct (Ascii.eqb c "-"); [|destruct (Ascii.eqb c "+")]; intros H.
  - destruct (PyStr.int_body r) as [b|] eqn:Eb; [|discriminate]. injection H as <-.
    apply int_body_bound in Eb. pose proof (Hmono _ Hr ltac:(lia)). lia.
  - apply int_body_bound in H. pose proof (Hmono _ Hr ltac:(lia)). lia.
  - apply int_body_bound in H. pose proof (Hmono _ Hcr ltac:(lia)). lia.
Qed.

(** What [int] accepts can be converted back to text. *)
Lemma int_fits s z : PyStr.int s = Some z -> PyStr.fits z = true.
Proof.
  intros H. apply int_Some in H as [Hl Ht]. apply int_literal_bound in Hl.
  apply fits_iff. unfold PyStr.too_long in Ht. apply Z.ltb_ge in Ht.
  pose proof (Z.pow_le_mono_r 10 _ _ ltac:(lia) Ht). lia.
Qed.

Lemma lstrip_head p s c r : PyStr.lstrip p s = String c r -> p c = false.
Proof.
  induction s as [|a t IH]; simpl; [discriminate|].
  destruct (p a) eqn:E; [exact IH|]. intros [= <- <-]. exact E.
Qed.

Lemma rstrip_head p c r c' r' :
  PyStr.rstrip p (String c r) = String c' r' -> c' = c.
Proof.
  simpl. destruct (PyStr.is_empty (PyStr.rstrip p r) && p c); [discriminate|].
  now intros [= <- <-].
Qed.

Lemma int_space_isspace c : PyStr.isspace c = false -> PyStr.int_space c = false.
Proof.
  unfold PyStr.isspace, PyStr.int_space. cbv zeta. generalize (PyStr.ord c). intros n H.
  rewrite !orb_false_iff, !andb_false_iff, ?Z.leb_gt, ?Z.eqb_neq in *. lia.
Qed.

(** On stripped text, a negative result shows as a leading minus sign. *)
Lemma int_strip_negative text z :
  PyStr.int (PyStr.strip text) = Some z -> z < 0 ->
  exists r, PyStr.strip text = String "-" r.
Proof.
  intros H Hz. destruct (int_negative _ _ H Hz) as [r0 E].
  destruct (PyStr.strip text) as [|c r] eqn:Es.
  - discriminate E.
  - unfold PyStr.strip, PyStr.strip_with in Es.
    destruct (PyStr.lstrip PyStr.isspace text) as [|a t] eqn:El; [discriminate|].
    pose proof (lstrip_head _ _ _ _ El) as Ha.
    apply rstrip_head in Es. subst c.
    unfold PyStr.strip_with in E. rewrite lstrip_keep in E by now apply int_space_isspace.
    apply rstrip_head in E. subst a. eauto.
Qed.

End IntStr.

(** ** The counter store *)

Ltac unfold_m :=
  unfold try_except, guarded, lift, external, logging, emit, ret, raise,
         mbind, M_bind, bind in *.

Section Store.

Variables (o : oracle) (filepath : string).

(** A read never raises and touches neither the files nor the trace; its
    value is 0 unless the stripped text of the file is an integer literal. *)
Lemma read_last_count_shape w :
  exists z dl,
    read_last_count o filepath w = (Return z, World (fs w) (log w ++ dl) (trace w)) /\
    (z = 0 \/
     (o_read_fault o = None /\
      exists text, fs w !! filepath = Some text /\
                   PyStr.int (PyStr.strip text) = Some z)).
Proof.
  unfold read_last_count, read_file, py_int. unfold_m.
  destruct (o_read_fault o) as [e|] eqn:Ef.
  - destruct e as [[] msg]; cbn; eauto 6.
  - destruct (fs w !! filepath) as [text|] eqn:Et; cbn; [|eauto 6].
    destruct (PyStr.is_empty (PyStr.strip text)) eqn:Ee; cbn; [eauto 6|].
    destruct (PyStr.int (PyStr.strip text)) as [z|] eqn:Ei; cbn.
    + exists z, []. rewrite app_nil_r. destruct w; eauto 8.
    + eauto 6.
Qed.

(** Without a fault, the value read is decided by the text of the file. *)
Lemma read_last_count_text w text :
  o_read_fault o = None -> fs w !! filepath = Some text ->
  eval (read_last_count o filepath) w = Return (default 0 (PyStr.int (PyStr.strip text))).
Proof.
  intros Ef Et. unfold eval, read_last_count, read_file, py_int. unfold_m.
  rewrite Ef, Et. cbn.
  destruct (PyStr.strip text) as [|c r] eqn:Es; [reflexivity|]. cbn.
  destruct (PyStr.int (String c r)); reflexivity.
Qed.

Lemma read_last_count_missing w :
  fs w !! filepath = None -> eval (read_last_count o filepath) w = Return 0.
Proof.
  intros Et. unfold eval, read_last_count, read_file. unfold_m.
  rewrite Et. destruct (o_read_fault o) as [[[] msg]|]; reflexivity.
Qed.

(** The value read depends on the world through the files only. *)
Lemma read_last_count_fs w1 w2 :
  fs w1 = fs w2 ->
  eval (read_last_count o filepath) w1 = eval (read_last_count o filepath) w2.
Proof.
  intros E. unfold eval, read_last_count, read_file, py_int. unfold_m. rewrite E.
  destruct (o_read_fault o) as [[[] msg]|]; try reflexivity.
  destruct (fs w2 !! filepath) as [text|]; [|reflexivity]. cbn.
  destruct (PyStr.is_empty (PyStr.strip text)); [reflexivity|]. cbn.
  destruct (PyStr.int (PyStr.strip text)); reflexivity.
Qed.

(** What is read can be converted back to text. *)
Lemma read_last_count_fits w z :
  eval (read_last_count o filepath) w = Return z -> PyStr.fits z = true.
Proof.
  destruct (read_last_count_shape w) as (z' & dl & E & Hz).
  unfold eval. rewrite E. cbn. intros [= <-].
  destruct Hz as [-> | (_ & text & _ & Hi)]; [reflexivity | exact (int_fits _ _ Hi)].
Qed.

(** Converting values within the limit changes nothing; beyond it, the
    conversion raises. *)
Lemma formatting_ok vs w :
  forallb formattable vs = true -> formatting vs w = (Return tt, w).
Proof. intros H. unfold formatting. now rewrite H. Qed.

Lemma formatting_fails vs w :
  forallb formattable vs = false -> formatting vs w = (Raise str_limit_error, w).
Proof. intros H. unfold formatting. now rewrite H. Qed.

(** What a write does to the world, fault by fault. *)
Lemma write_last_count_world count w :
  write_last_count o filepath count w =
  (Return VNone,
   match o_write_fault o, formattable count with
   | Some (AtOpen, e), _ =>
       World (fs w)
             (log w ++ [(ERROR, "Error writing to " +:+ filepath +:+ ": " +:+ exn_msg e)])
             (trace w)
   | _, false =>
       World (<[filepath := EmptyString]> (fs w))
             (log w ++ [(ERROR, "Error writing to " +:+ filepath +:+ ": "
                                +:+ exn_msg str_limit_error)])
             (trace w)
   | Some (AtWrite n, e), true =>
       World (<[filepath := PyStr.take n (py_str count)]> (fs w))
             (log w ++ [(ERROR, "Error writing to " +:+ filepath +:+ ": " +:+ exn_msg e)])
             (trace w)
   | None, true =>
       World (<[filepath := py_str count]> (fs w))
             (log w ++ [(INFO, "Successfully updated " +:+ filepath
                               +:+ " with count: " +:+ py_str count)])
             (trace w)
   end).
Proof.
  unfold write_last_count, open_write, write_text, formatting. unfold_m.
  cbn [forallb]. rewrite andb_true_r.
  destruct (o_write_fault o) as [[[|n] e]|]; destruct (formattable count);
    cbn; rewrite ?insert_insert_eq; reflexivity.
Qed.

End Store.

(** C2.  Whatever the state of the backing file and whatever fault the read
    meets, [read_last_count] returns an integer and does not raise; it
    returns 0 when the file is absent, when its text is empty once stripped,
    and when the stripped text is not an integer literal. *)
Theorem read_last_count_defaults o filepath w :
  (exists z, eval (read_last_count o filepath) w = Return z) /\
  (fs w !! filepath = None \/
   (exists text, fs w !! filepath = Some text /\
      (PyStr.strip text = EmptyString \/ PyStr.int (PyStr.strip text) = None)) ->
   eval (read_last_count o filepath) w = Return 0).
Proof.
  split.
  - destruct (read_last_count_shape o filepath w) as (z & dl & E & _).
    exists z. unfold eval. now rewrite E.
  - intros [Hnone | (text & Ht & Hbad)].
    + now apply read_last_count_missing.
    + destruct (read_last_count_shape o filepath w) as (z & dl & E & Hz).
      unfold eval. rewrite E. cbn. f_equal.
      destruct Hz as [-> | (_ & text' & Ht' & Hi)]; [reflexivity|].
      rewrite Ht in Ht'. injection Ht' as <-.
      destruct Hbad as [Hs | Hn]; [rewrite Hs in Hi; discriminate Hi | congruence].
Qed.

Lemma read_last_count_defaults_witness :
  (fs Sample.empty_world !! LAST_COUNT_FILE = None \/
   (exists text, fs Sample.empty_world !! LAST_COUNT_FILE = Some text /\
      (PyStr.strip text = EmptyString \/ PyStr.int (PyStr.strip text) = None))) /\
  eval (read_last_count (calm ∅) LAST_COUNT_FILE) Sample.empty_world = Return 0 /\
  eval (read_last_count (calm ∅) LAST_COUNT_FILE) (Sample.stored "   ") = Return 0 /\
  eval (read_last_count (calm ∅) LAST_COUNT_FILE) (Sample.stored "12a") = Return 0.
Proof.
  split; [left; reflexivity|].
  split; [|split].
  - apply (proj2 (read_last_count_defaults (calm ∅) LAST_COUNT_FILE Sample.empty_world)).
    left. reflexivity.
  - apply (proj2 (read_last_count_defaults (calm ∅) LAST_COUNT_FILE (Sample.stored "   "))).
    right. exists "   ". split; [reflexivity | left; reflexivity].
  - apply (proj2 (read_last_count_defaults (calm ∅) LAST_COUNT_FILE (Sample.stored "12a"))).
    right. exists "12a". split; [reflexivity | right; reflexivity].
Defined.

(** C3, as the code has it.  For every integer [v] of at most 4300 decimal
    digits, a write of [v] that meets no fault followed by a read of the
    same file that meets no fault returns [v]. *)
Theorem write_then_read o1 o2 filepath v w :
  Z.abs v < 10 ^ PyStr.max_str_digits ->
  o_write_fault o1 = None -> o_read_fault o2 = None ->
  eval (read_last_count o2 filepath) (exec (write_last_count o1 filepath (VInt v)) w)
  = Return v.
Proof.
  intros Hv Hw Hr. apply fits_iff in Hv.
  unfold exec. rewrite write_last_count_world, Hw.
  unfold formattable at 1. rewrite Hv. cbn [snd].
  rewrite (read_last_count_text o2 filepath _ (PyStr.str v) Hr).
  - now rewrite strip_str, int_str.
  - cbn. apply lookup_insert_eq.
Qed.

Lemma write_then_read_witness :
  Z.abs (-42) < 10 ^ PyStr.max_str_digits /\
  o_write_fault (calm ∅) = None /\ o_read_fault (calm ∅) = None /\
  eval (read_last_count (calm ∅) LAST_COUNT_FILE)
       (exec (write_last_count (calm ∅) LAST_COUNT_FILE (VInt (-42))) (Sample.stored "7"))
  = Return (-42).
Proof.
  split; [vm_compute; reflexivity|]. split; [reflexivity|]. split; [reflexivity|].
  apply (write_then_read (calm ∅) (calm ∅) LAST_COUNT_FILE (-42) (Sample.stored "7"));
    [vm_compute; reflexivity | reflexivity ..].
Defined.

(** C3, as stated, fails: the integer [10 ^ 4300] has 4301 digits.  With no
    I/O fault injected, [str(count)] raises [ValueError] after [open] has
    emptied the file; the write logs the error, and the read returns 0. *)
Lemma write_then_read_beyond_limit :
  let v := 10 ^ PyStr.max_str_digits in
  let w := Sample.stored "7" in
  let write := write_last_count (calm ∅) LAST_COUNT_FILE (VInt v) in
  o_write_fault (calm ∅) = None /\ o_read_fault (calm ∅) = None /\
  fs (exec write w) !! LAST_COUNT_FILE = Some EmptyString /\
  new_log write w =
    [(ERROR, "Error writing to last_citation_count.txt: Exceeds the limit (4300 digits) for integer string conversion; use sys.set_int_max_str_digits() to increase the limit")] /\
  eval (read_last_count (calm ∅) LAST_COUNT_FILE) (exec write w) = Return 0 /\
  eval (read_last_count (calm ∅) LAST_COUNT_FILE) (exec write w) <> Return v.
Proof.
  cbv zeta.
  assert (Hv : formattable (VInt (10 ^ PyStr.max_str_digits)) = false).
  { unfold formattable. destruct (PyStr.fits _) eqn:E; [|reflexivity].
    apply fits_iff in E. lia. }
  unfold new_log, exec. rewrite write_last_count_world, Hv.
  repeat split; try reflexivity.
  cbn. intros [= H].
Qed.

(** C4, as the code has it.  [write_last_count] returns [None] whether the
    write succeeded or failed and never raises.  On success it replaces the
    text of the file and logs one INFO line; on a failure it logs one ERROR
    line and leaves the file as the failed write left it: untouched when
    [open] failed, emptied when the count has more than 4300 digits, holding
    the characters that were written when the write itself failed.  The
    outcomes differ in the log and in the file, not in the returned value. *)
Theorem write_last_count_returns_none o filepath count w :
  eval (write_last_count o filepath count) w = Return VNone /\
  exec (write_last_count o filepath count) w =
    match o_write_fault o, formattable count with
    | Some (AtOpen, e), _ =>
        World (fs w)
              (log w ++ [(ERROR, "Error writing to " +:+ filepath +:+ ": " +:+ exn_msg e)])
              (trace w)
    | _, false =>
        World (<[filepath := EmptyString]> (fs w))
              (log w ++ [(ERROR, "Error writing to " +:+ filepath +:+ ": "
                                 +:+ exn_msg str_limit_error)])
              (trace w)
    | Some (AtWrite n, e), true =>
        World (<[filepath := PyStr.take n (py_str count)]> (fs w))
              (log w ++ [(ERROR, "Error writing to " +:+ filepath +:+ ": " +:+ exn_msg e)])
              (trace w)
    | None, true =>
        World (<[filepath := py_str count]> (fs w))
              (log w ++ [(INFO, "Successfully updated " +:+ filepath
                                +:+ " with count: " +:+ py_str count)])
              (trace w)
    end.
Proof. unfold eval, exec. rewrite write_last_count_world. split; reflexivity. Qed.

(** C4, as stated, fails: a write that succeeds and a write that fails
    return the same value to the caller. *)
Lemma write_last_count_no_flag :
  let w := Sample.stored "10" in
  let good := write_last_count (calm ∅) LAST_COUNT_FILE (VInt 15) in
  let failing := write_last_count (Sample.no_write ∅) LAST_COUNT_FILE (VInt 15) in
  persisted (exec good w) = 15 /\ persisted (exec failing w) = 10 /\
  ~ (eval good w <> eval failing w).
Proof. cbv zeta. split; [|split]; [vm_compute; reflexivity ..|]. intros H. now apply H. Qed.

(** C9, as the code has it.  The value read is an integer that is
    non-negative unless the stripped text of the file begins with a minus
    sign. *)
Theorem read_last_count_sign o filepath w :
  exists z, eval (read_last_count o filepath) w = Return z /\
    (0 <= z \/
     exists text r, fs w !! filepath = Some text /\ PyStr.strip text = String "-" r).
Proof.
  destruct (read_last_count_shape o filepath w) as (z & dl & E & Hz).
  exists z. split; [unfold eval; now rewrite E|].
  destruct Hz as [-> | (_ & text & Ht & Hi)]; [left; lia|].
  destruct (Z.neg_nonneg_cases z) as [Hneg | Hpos]; [|now left].
  right. destruct (int_strip_negative text z Hi Hneg) as [r Hr]. eauto.
Qed.

(** C9, as stated, fails: a file holding the text -5 reads as -5. *)
Lemma read_last_count_negative :
  eval (read_last_count (calm ∅) LAST_COUNT_FILE) (Sample.stored "-5") = Return (-5) /\
  ~ (0 <= -5).
Proof. split; [vm_compute; reflexivity | lia]. Qed.

(** ** Computations that only report *)

Create HintDb reports.

Section Reports.

Context {A B : Type}.

Lemma writes_ret (a : A) : writes (ret a) (Return a) [] [].
Proof. intros [f l t]. unfold ret. cbn. now rewrite !app_nil_r. Qed.

Lemma writes_raise (e : exn) : writes (@raise A e) (Raise e) [] [].
Proof. intros [f l t]. unfold raise. cbn. now rewrite !app_nil_r. Qed.

Lemma writes_bind (m : M A) (k : A -> M B) a dl dt r dl' dt' :
  writes m (Return a) dl dt -> writes (k a) r dl' dt' ->
  writes (bind m k) r (dl ++ dl') (dt ++ dt').
Proof.
  intros Hm Hk w. unfold bind. rewrite Hm, Hk. cbn. now rewrite !app_assoc.
Qed.

Lemma writes_bind_raise (m : M A) (k : A -> M B) e dl dt :
  writes m (Raise e) dl dt -> writes (bind m k) (Raise e) dl dt.
Proof. intros Hm w. unfold bind. now rewrite Hm. Qed.

Lemma writes_guarded (m : M A) hs (k : A -> M B) a dl dt r dl' dt' :
  writes m (Return a) dl dt -> writes (k a) r dl' dt' ->
  writes (guarded m hs k) r (dl ++ dl') (dt ++ dt').
Proof.
  intros Hm Hk w. unfold guarded. rewrite Hm, Hk. cbn. now rewrite !app_assoc.
Qed.

Lemma writes_guarded_raise (m : M A) hs (k : A -> M B) e dl dt r dl' dt' :
  writes m (Raise e) dl dt -> writes (dispatch hs e) r dl' dt' ->
  writes (guarded m hs k) r (dl ++ dl') (dt ++ dt').
Proof.
  intros Hm Hk w. unfold guarded. rewrite Hm, Hk. cbn. now rewrite !app_assoc.
Qed.

Variable P : event -> Prop.

Lemma reports_ret (a : A) : reports P (ret a).
Proof. exists (Return a), [], []. split; [apply writes_ret | constructor]. Qed.

Lemma reports_raise (e : exn) : reports P (@raise A e).
Proof. exists (Raise e), [], []. split; [apply writes_raise | constructor]. Qed.

Lemma reports_lift (r : outcome A) : reports P (lift r).
Proof. destruct r; [apply reports_ret | apply reports_raise]. Qed.

Lemma reports_bind (m : M A) (k : A -> M B) :
  reports P m -> (forall a, reports P (k a)) -> reports P (bind m k).
Proof.
  intros (r & dl & dt & Hm & Hdt) Hk. destruct r as [a|e].
  - destruct (Hk a) as (r' & dl' & dt' & Hka & Hdt').
    exists r', (dl ++ dl'), (dt ++ dt'). split; [now apply (writes_bind m k a)|].
    now apply Forall_app.
  - exists (Raise e), dl, dt. split; [now apply writes_bind_raise | assumption].
Qed.

Lemma reports_dispatch (hs : list (except_pat * (exn -> M A))) e :
  Forall (fun ph => forall e', reports P (ph.2 e')) hs -> reports P (dispatch hs e).
Proof.
  induction 1 as [|[p h] rest Hh _ IH]; cbn; [apply reports_raise|].
  destruct (pat_matches p e); [apply Hh | apply IH].
Qed.

Lemma reports_guarded (m : M A) hs (k : A -> M B) :
  reports P m -> (forall e, reports P (dispatch hs e)) -> (forall a, reports P (k a)) ->
  reports P (guarded m hs k).
Proof.
  intros (r & dl & dt & Hm & Hdt) Hh Hk. destruct r as [a|e].
  - destruct (Hk a) as (r' & dl' & dt' & Hka & Hdt').
    exists r', (dl ++ dl'), (dt ++ dt'). split; [now apply (writes_guarded m hs k a)|].
    now apply Forall_app.
  - destruct (Hh e) as (r' & dl' & dt' & Hhe & Hdt').
    exists r', (dl ++ dl'), (dt ++ dt').
    split; [now apply (writes_guarded_raise m hs k e)|]. now apply Forall_app.
Qed.

End Reports.

Lemma writes_logging l msg : writes (logging l msg) (Return tt) [(l, msg)] [].
Proof. intros [f lg t]. unfold logging. cbn. now rewrite app_nil_r. Qed.

Lemma writes_emit ev : writes (emit ev) (Return tt) [] [ev].
Proof. intros [f lg t]. unfold emit. cbn. now rewrite app_nil_r. Qed.

Lemma reports_logging P l msg : reports P (logging l msg).
Proof. exists (Return tt), [(l, msg)], []. split; [apply writes_logging | constructor]. Qed.

Lemma reports_emit (P : event -> Prop) ev : P ev -> reports P (emit ev).
Proof. intros H. exists (Return tt), [], [ev]. split; [apply writes_emit | now repeat constructor]. Qed.

Lemma reports_external (P : event -> Prop) ev fault : P ev -> reports P (external ev fault).
Proof.
  intros H. unfold external, mbind, M_bind. apply reports_bind; [now apply reports_emit|].
  intros _. destruct fault; [apply reports_raise | apply reports_ret].
Qed.

Lemma reports_try_except {A} P (m : M A) hs :
  reports P m -> (forall e, reports P (dispatch hs e)) -> reports P (try_except m hs).
Proof. intros Hm Hh. apply reports_guarded; auto. intros a. apply reports_ret. Qed.

Lemma reports_with_smtp {A} (P : event -> Prop) o (block : M A) :
  P SmtpQuit -> reports P block -> reports P (with_smtp o block).
Proof.
  intros Hq (r & dl & dt & Hm & Hdt).
  destruct (reports_external P SmtpQuit (o_quit o) Hq) as (rq & dlq & dtq & Hwq & Hdq).
  exists (match rq with Return _ => r | Raise e => Raise e end), (dl ++ dlq), (dt ++ dtq).
  split; [|now apply Forall_app].
  intros w. unfold with_smtp. rewrite Hm, Hwq. cbn. rewrite !app_assoc.
  destruct rq; reflexivity.
Qed.

(** A reporting computation gives the same result in every world. *)
Lemma writes_eval {A} (m : M A) r dl dt w : writes m r dl dt -> eval m w = r.
Proof. intros H. unfold eval. now rewrite H. Qed.

Lemma writes_unique {A} (m : M A) r dl dt r' dl' dt' :
  writes m r dl dt -> writes m r' dl' dt' -> r = r' /\ dl = dl' /\ dt = dt'.
Proof.
  intros H H'. specialize (H (World ∅ [] [])). specialize (H' (World ∅ [] [])).
  rewrite H in H'. cbn in H'. injection H' as -> -> ->. auto.
Qed.

Lemma reports_formatting P vs : reports P (formatting vs).
Proof. unfold formatting. destruct (forallb formattable vs); [apply reports_ret | apply reports_raise]. Qed.

#[local] Hint Resolve reports_ret reports_raise reports_lift reports_logging
  reports_formatting : reports.

(** One structural step of a proof that a computation only reports. *)
Ltac reports_step :=
  unfold mbind, M_bind;
  first
    [ solve [auto with reports]
    | apply reports_emit; reflexivity
    | apply reports_external; reflexivity
    | apply reports_bind; [|intros ?]
    | apply reports_guarded; [|intros ?|intros ?]
    | apply reports_try_except; [|intros ?]
    | apply reports_with_smtp; [reflexivity|]
    | apply reports_dispatch; repeat constructor; cbn; intros ?
    | match goal with
      | |- reports _ (if ?b then _ else _) => destruct b
      | |- reports _ (match ?x with _ => _ end) => destruct x
      end ].

Ltac reports_auto := repeat reports_step.

Lemma citation_result_reports P info : reports P (citation_result info).
Proof. unfold citation_result. reports_auto. Qed.

Lemma get_citation_count_reports o author_name author_id :
  reports (fun ev => is_scholar_event ev = true)
          (get_citation_count o author_name author_id).
Proof. unfold get_citation_count, lookup_handlers, citation_result. reports_auto. Qed.

Lemma lookup_reports cfg o :
  reports (fun ev => is_scholar_event ev = true) (lookup cfg o).
Proof.
  unfold lookup. reports_auto; apply get_citation_count_reports.
Qed.

Lemma send_email_reports o subject body sender password receiver server port :
  exists r dl dt,
    writes (send_email o subject body sender password receiver server port)
           r dl (CallSendEmail subject body :: dt) /\
    Forall (fun ev => is_notifier_event ev = true) dt.
Proof.
  unfold send_email, mbind, M_bind.
  match goal with
  | |- context [bind (emit _) ?k] =>
      assert (reports (fun x => is_notifier_event x = true) (k tt)) as (r & dl & dt & Hw & Hdt)
        by (cbv beta; reports_auto)
  end.
  exists r, dl, dt. split; [|assumption].
  apply (writes_bind _ _ tt [] [_] r dl dt); [apply writes_emit | exact Hw].
Qed.

(** ** The notifier and the lookup *)



(** C8.  When the Scholar client raises during the lookup,
    [get_citation_count] returns a pair whose count is [None].  If the
    exception is [StopIteration] (no matching author) the first component is
    the [author_name] argument as it was passed; for any other exception it
    is the value of [search_query] at that moment, which is [None] or the
    search generator and never the name. *)
Theorem lookup_failure_identity o author_name author_id e w :
  lookup_raises o author_name author_id e ->
  exists who,
    eval (get_citation_count o author_name author_id) w = Return (who, VNone) /\
    (exn_cls e = StopIteration -> who = author_name) /\
    (exn_cls e <> StopIteration -> who = VNone \/ exists q, who = VGen q).
Proof.
  intros H. unfold eval, get_citation_count, lookup_handlers.
  destruct e as [c msg].
  destruct H as [Hid Hs | info Hid Hs Hf | Hid Hn Hs | Hid Hn Hs Hx | info Hid Hn Hs Hx Hf];
    rewrite Hid, ?Hn, ?andb_false_r; cbn [negb andb]; unfold_m; cbn;
    rewrite Hs, ?Hx; cbn; rewrite ?Hf; cbn;
    destruct c; cbn; eexists; (split; [reflexivity|]); split; intros; try congruence; eauto.
Qed.

Lemma lookup_failure_identity_witness :
  lookup_raises Sample.not_found (VStr "Ada Lovelace") VNone (Exn StopIteration "") /\
  exists who,
    eval (get_citation_count Sample.not_found (VStr "Ada Lovelace") VNone)
         Sample.empty_world = Return (who, VNone) /\
    (exn_cls (Exn StopIteration "") = StopIteration -> who = VStr "Ada Lovelace") /\
    (exn_cls (Exn StopIteration "") <> StopIteration -> who = VNone \/ exists q, who = VGen q).
Proof.
  assert (lookup_raises Sample.not_found (VStr "Ada Lovelace") VNone (Exn StopIteration ""))
    as H by (apply raises_next; reflexivity).
  split; [exact H|].
  exact (lookup_failure_identity Sample.not_found (VStr "Ada Lovelace") VNone
           (Exn StopIteration "") Sample.empty_world H).
Defined.

(** C10.  When [SMTP_PORT] is set to a string that [int] cannot parse, the
    module-level conversion raises [ValueError]; the script stops there and
    runs no cycle: nothing is logged, no call is made, no file is touched. *)
Theorem bad_port_stops_startup environ text os w :
  environ !! "SMTP_PORT" = Some text -> PyStr.int text = None ->
  exists e, exn_cls e = ValueError /\ load_config environ = Raise e /\
            main environ os w = (Raise e, w).
Proof.
  intros He Hi. eexists. split; [|split].
  2: { unfold load_config, getenv, py_int. rewrite He, Hi. reflexivity. }
  - reflexivity.
  - unfold main, load_config, getenv, py_int. unfold_m. rewrite He, Hi. reflexivity.
Qed.

Lemma bad_port_stops_startup_witness :
  ({[ "SMTP_PORT" := "smtp" ]} : gmap string string) !! "SMTP_PORT" = Some "smtp" /\
  PyStr.int "smtp" = None /\
  exists e, exn_cls e = ValueError /\
            load_config {[ "SMTP_PORT" := "smtp" ]} = Raise e /\
            main {[ "SMTP_PORT" := "smtp" ]} [calm (Sample.ada 15)] (Sample.stored "10")
            = (Raise e, Sample.stored "10").
Proof.
  split; [reflexivity|]. split; [reflexivity|].
  apply (bad_port_stops_startup {[ "SMTP_PORT" := "smtp" ]} "smtp"); reflexivity.
Defined.

(** ** The check cycle *)

(** Every value of the list is within the limit, by the hypotheses. *)
Ltac fmt_ok :=
  cbn [forallb]; repeat (apply andb_true_intro; split); first [assumption | reflexivity].

Section Cycle.

Variables (cfg : config) (o : oracle).

(** The iteration up to the comparison: the read and the lookup only
    report, and the comparison starts from the files as they were. *)
Lemma cycle_run w last ident name total :
  eval (read_last_count o LAST_COUNT_FILE) w = Return last ->
  eval (lookup cfg o) w = Return (ident, (name, total)) ->
  exists dl dt,
    Forall (fun ev => is_scholar_event ev = true) dt /\
    cycle cfg o w =
      (Return tt,
       wind_up (decide_and_act cfg o last ident name total
                  (World (fs w) (log w ++ dl) (trace w ++ dt)))).
Proof.
  intros Hr Hl.
  destruct (lookup_reports cfg o) as (rl & dll & dtl & Hwl & Hdtl).
  rewrite (writes_eval _ _ _ _ w Hwl) in Hl. subst rl.
  set (w0 := World (fs w) (log w ++ [(INFO, "--- Starting Hourly Citation Check ---")]) (trace w)).
  destruct (read_last_count_shape o LAST_COUNT_FILE w0) as (z & dlr & Er & _).
  assert (z = last) as ->.
  { pose proof (read_last_count_fs o LAST_COUNT_FILE w0 w eq_refl) as E.
    unfold eval in E at 1. rewrite Er, Hr in E. now injection E. }
  exists ([(INFO, "--- Starting Hourly Citation Check ---")] ++ dlr
          ++ [(INFO, "Last known citation count: " +:+ PyStr.str last)] ++ dll), dtl.
  split; [assumption|].
  pose proof (read_last_count_fits o LAST_COUNT_FILE w last Hr) as Hfit.
  unfold cycle, check. unfold_m. fold w0. rewrite Er. cbn [fs log trace].
  rewrite formatting_ok by fmt_ok.
  rewrite Hwl. cbn [fst snd fs log trace]. subst w0. cbn [fs log trace].
  rewrite <- !app_assoc. cbn [app].
  destruct (decide_and_act _ _ _ _ _ _ _) as [[[]|e] w3];
    unfold wind_up, dispatch, pat_matches; cbn [fst snd fs log trace];
    rewrite <- ?app_assoc; reflexivity.
Qed.

(** A lookup that yields a count was made for a configured author. *)
Lemma lookup_ident w ident name total :
  eval (lookup cfg o) w = Return (ident, (name, total)) ->
  total <> VNone -> String.eqb ident "N/A" = false.
Proof.
  unfold lookup, eval, mbind, M_bind, bind.
  destruct (truthy (AUTHOR_ID cfg)); [|destruct (truthy (AUTHOR_NAME cfg))].
  - destruct (get_citation_count_reports o VNone (AUTHOR_ID cfg)) as (r & dl & dt & Hw & _).
    rewrite Hw. destruct r; cbn; [|discriminate]. intros [= <- _] _. reflexivity.
  - destruct (get_citation_count_reports o (AUTHOR_NAME cfg) VNone) as (r & dl & dt & Hw & _).
    rewrite Hw. destruct r; cbn; [|discriminate]. intros [= <- _] _. reflexivity.
  - cbn. intros [= _ _ <-] H. now destruct H.
Qed.

(** A count that the lookup returns has been formatted for the log, with
    the display name. *)
Lemma get_citation_count_formattable author_name author_id w name total :
  eval (get_citation_count o author_name author_id) w = Return (name, total) ->
  total <> VNone -> formattable name = true /\ formattable total = true.
Proof.
  unfold eval, get_citation_count, lookup_handlers, citation_result, formatting.
  unfold_m. cbn [forallb]. intros H Hn. revert H.
  repeat (case_match; cbn [fst snd dispatch pat_matches exn_class_eqb exn_cls]);
    (let Hres := fresh "Hres" in intros Hres; inversion Hres; subst); try congruence.
  all: simplify_eq.
  all: match goal with
       | H : _ && (_ && true) = true |- _ =>
           rewrite andb_true_r in H; apply andb_prop in H; exact H
       end.
Qed.

Lemma lookup_formattable w ident name total :
  eval (lookup cfg o) w = Return (ident, (name, total)) ->
  total <> VNone -> formattable name = true /\ formattable total = true.
Proof.
  unfold lookup, eval, mbind, M_bind, bind.
  destruct (truthy (AUTHOR_ID cfg)); [|destruct (truthy (AUTHOR_NAME cfg))].
  - destruct (get_citation_count o VNone (AUTHOR_ID cfg) w) as [[[n t]|e] w1] eqn:E;
      cbn; [|discriminate]. intros [= _ <- <-].
    apply (get_citation_count_formattable VNone (AUTHOR_ID cfg) w). unfold eval. now rewrite E.
  - destruct (get_citation_count o (AUTHOR_NAME cfg) VNone w) as [[[n t]|e] w1] eqn:E;
      cbn; [|discriminate]. intros [= _ <- <-].
    apply (get_citation_count_formattable (AUTHOR_NAME cfg) VNone w). unfold eval. now rewrite E.
  - cbn. intros [= _ _ <-] H. now destruct H.
Qed.

(** The comparison step when the count has grown. *)
Lemma decide_increase w2 last current ident name r dl dt :
  PyStr.fits last = true -> PyStr.fits current = true -> formattable name = true ->
  PyStr.fits (current - last) = true ->
  String.eqb ident "N/A" = false -> last < current ->
  writes (notify cfg o (increase_subject name (current - last))
            (increase_body o ident name (VInt current) last (current - last))) r dl dt ->
  decide_and_act cfg o last ident name (VInt current) w2 =
    let w3 := World (fs w2)
                (log w2 ++ [(INFO, "New citation count (" +:+ PyStr.str current
                                   +:+ ") is higher than the last count (" +:+ PyStr.str last
                                   +:+ "). Sending email.")] ++ dl)
                (trace w2 ++ dt) in
    match r with
    | Return true => (Return tt, exec (write_last_count o LAST_COUNT_FILE (VInt current)) w3)
    | Return false =>
        (Return tt,
         World (fs w3)
               (log w3 ++ [(ERROR, "Email failed to send. Last count file will not be updated.")])
               (trace w3))
    | Raise e => (Raise e, w3)
    end.
Proof.
  intros Hfl Hfc Hfn Hfi Hid Hlt Hw.
  unfold decide_and_act. rewrite Hid. cbn [negb is_none py_gt py_sub py_str].
  apply Z.ltb_lt in Hlt. unfold_m. rewrite Hlt.
  repeat (rewrite formatting_ok by fmt_ok; cbn [fs log trace]).
  rewrite Hw. cbn [fs log trace].
  destruct r as [[]|e]; cbv zeta; cbn [fs log trace app]; rewrite <- ?app_assoc;
    try reflexivity.
  unfold exec. rewrite !write_last_count_world.
  destruct (o_write_fault o) as [[[|n] e]|]; destruct (formattable (VInt current));
    reflexivity.
Qed.

(** The comparison step when the increase has more than 4300 digits: the
    f-string of the subject raises, before the notifier is called. *)
Lemma decide_increase_beyond w2 last current ident name :
  PyStr.fits last = true -> PyStr.fits current = true ->
  PyStr.fits (current - last) = false ->
  String.eqb ident "N/A" = false -> last < current ->
  decide_and_act cfg o last ident name (VInt current) w2 =
    (Raise str_limit_error,
     World (fs w2)
       (log w2 ++ [(INFO, "New citation count (" +:+ PyStr.str current
                          +:+ ") is higher than the last count (" +:+ PyStr.str last
                          +:+ "). Sending email.")])
       (trace w2)).
Proof.
  intros Hfl Hfc Hfi Hid Hlt.
  unfold decide_and_act. rewrite Hid. cbn [negb is_none py_gt py_sub py_str].
  apply Z.ltb_lt in Hlt. unfold_m. rewrite Hlt.
  rewrite formatting_ok by fmt_ok. cbn [fs log trace].
  rewrite formatting_fails; [reflexivity|].
  cbn [forallb]. unfold formattable at 2. rewrite Hfi. now rewrite andb_false_r.
Qed.

(** The comparison step when the count has dropped. *)
Lemma decide_decrease w2 last current ident name :
  PyStr.fits last = true -> PyStr.fits current = true ->
  String.eqb ident "N/A" = false -> current < last ->
  decide_and_act cfg o last ident name (VInt current) w2 =
    (Return tt,
     exec (write_last_count o LAST_COUNT_FILE (VInt current))
       (World (fs w2)
          (log w2 ++ [(WARNING, "Citation count (" +:+ PyStr.str current
                                +:+ ") is lower than the last known count (" +:+ PyStr.str last
                                +:+ "). Not sending email, but updating count file.")])
          (trace w2))).
Proof.
  intros Hfl Hfc Hid Hlt.
  unfold decide_and_act. rewrite Hid. cbn [negb is_none py_gt py_eq py_str].
  assert ((last <? current) = false) as -> by lia.
  assert ((current =? last) = false) as E by lia.
  unfold_m. rewrite E.
  rewrite formatting_ok by fmt_ok. cbn [fs log trace].
  unfold exec. rewrite !write_last_count_world.
  destruct (o_write_fault o) as [[[|n] e]|]; destruct (formattable (VInt current));
    reflexivity.
Qed.

(** The comparison step when the lookup gave no count. *)
Lemma decide_no_count w2 last ident name :
  decide_and_act cfg o last ident name VNone w2 =
    (Return tt,
     if String.eqb ident "N/A" then w2
     else World (fs w2)
            (log w2 ++ [(WARNING, "Could not retrieve citation count for " +:+ ident
                                  +:+ ". No comparison or email sent this cycle.")])
            (trace w2)).
Proof. unfold decide_and_act. destruct (String.eqb ident "N/A"); reflexivity. Qed.

End Cycle.

Lemma write_last_count_fs o count w :
  formattable count = true ->
  fs (exec (write_last_count o LAST_COUNT_FILE count) w) = written o (py_str count) (fs w).
Proof.
  intros Hf. unfold exec, written. rewrite write_last_count_world, Hf.
  destruct (o_write_fault o) as [[[|n] e]|]; reflexivity.
Qed.

Lemma write_last_count_trace o count w :
  trace (exec (write_last_count o LAST_COUNT_FILE count) w) = trace w.
Proof.
  unfold exec. rewrite write_last_count_world.
  destruct (o_write_fault o) as [[[|n] e]|]; destruct (formattable count); reflexivity.
Qed.

Lemma wind_up_fs r w : fs (wind_up (r, w)) = fs w.
Proof. unfold wind_up. destruct r; reflexivity. Qed.

Lemma wind_up_trace r w : trace (wind_up (r, w)) = trace w ++ [Sleep 3600].
Proof. unfold wind_up. destruct r; reflexivity. Qed.

Lemma persisted_fs w1 w2 : fs w1 = fs w2 -> persisted w1 = persisted w2.
Proof.
  intros E. unfold persisted. now rewrite (read_last_count_fs _ _ w1 w2 E).
Qed.

Lemma persisted_read o w :
  o_read_fault o = None ->
  eval (read_last_count o LAST_COUNT_FILE) w = Return (persisted w).
Proof.
  intros Hf. unfold persisted.
  destruct (fs w !! LAST_COUNT_FILE) as [text|] eqn:Et.
  - rewrite (read_last_count_text o _ w text Hf Et).
    now rewrite (read_last_count_text (calm ∅) _ w text eq_refl Et).
  - rewrite (read_last_count_missing o _ w Et).
    now rewrite (read_last_count_missing (calm ∅) _ w Et).
Qed.

Lemma persisted_written w z :
  PyStr.fits z = true ->
  fs w !! LAST_COUNT_FILE = Some (PyStr.str z) -> persisted w = z.
Proof.
  intros Hf Et. unfold persisted.
  rewrite (read_last_count_text (calm ∅) _ w _ eq_refl Et).
  now rewrite strip_str, int_str.
Qed.

Lemma fits_increase last current :
  last < current -> current - last < 10 ^ PyStr.max_str_digits ->
  PyStr.fits (current - last) = true.
Proof. intros Hlt Hi. apply fits_iff. lia. Qed.

Lemma new_events_app {A} (m : M A) w evs :
  trace (exec m w) = trace w ++ evs -> new_events m w = evs.
Proof. intros E. unfold new_events. rewrite E. apply drop_app_length. Qed.

Lemma new_log_app {A} (m : M A) w lines :
  log (exec m w) = log w ++ lines -> new_log m w = lines.
Proof. intros E. unfold new_log. rewrite E. apply drop_app_length. Qed.

(** The whole iteration when the count has grown: the trace gains the
    lookup, one call of the notifier and the sleep; the file changes only
    through the write that follows a successful send. *)
Lemma cycle_increase cfg o w last current ident name :
  eval (read_last_count o LAST_COUNT_FILE) w = Return last ->
  eval (lookup cfg o) w = Return (ident, (name, VInt current)) ->
  last < current -> PyStr.fits (current - last) = true ->
  let subject := increase_subject name (current - last) in
  let body := increase_body o ident name (VInt current) last (current - last) in
  exists dtl dts,
    Forall (fun ev => is_scholar_event ev = true) dtl /\
    Forall (fun ev => is_notifier_event ev = true) dts /\
    trace (exec (cycle cfg o) w)
      = trace w ++ dtl ++ CallSendEmail subject body :: dts ++ [Sleep 3600] /\
    fs (exec (cycle cfg o) w)
      = match eval (notify cfg o subject body) w with
        | Return true => written o (PyStr.str current) (fs w)
        | _ => fs w
        end.
Proof.
  intros Hr Hl Hlt Hfi subject body.
  destruct (cycle_run cfg o w last ident name (VInt current) Hr Hl) as (dl & dtl & Hdtl & E).
  destruct (send_email_reports o subject body (SENDER_EMAIL cfg) (SENDER_PASSWORD cfg)
              (RECEIVER_EMAIL cfg) (SMTP_SERVER cfg) (VInt (SMTP_PORT cfg)))
    as (r & dls & dts & Hw & Hdts).
  fold (notify cfg o subject body) in Hw.
  exists dtl, dts. split; [assumption|]. split; [assumption|].
  rewrite (writes_eval _ _ _ _ w Hw).
  unfold exec. rewrite E. cbn [snd].
  pose proof (read_last_count_fits o _ w last Hr) as Hfl.
  destruct (lookup_formattable cfg o w ident name _ Hl ltac:(discriminate)) as [Hfn Hfc].
  rewrite (decide_increase cfg o _ last current ident name r dls _ Hfl Hfc Hfn Hfi
             (lookup_ident cfg o w ident name _ Hl ltac:(discriminate)) Hlt Hw).
  cbv zeta. destruct r as [[]|e].
  - rewrite wind_up_trace, wind_up_fs, write_last_count_trace, write_last_count_fs by exact Hfc.
    cbn [fs trace py_str]. rewrite <- !app_assoc. split; reflexivity.
  - rewrite wind_up_trace, wind_up_fs. cbn [fs trace]. rewrite <- !app_assoc.
    split; reflexivity.
  - rewrite wind_up_trace, wind_up_fs. cbn [fs trace]. rewrite <- !app_assoc.
    split; reflexivity.
Qed.

(** The whole iteration when the count has dropped. *)
Lemma cycle_decrease cfg o w last current ident name :
  eval (read_last_count o LAST_COUNT_FILE) w = Return last ->
  eval (lookup cfg o) w = Return (ident, (name, VInt current)) ->
  current < last ->
  exists dtl,
    Forall (fun ev => is_scholar_event ev = true) dtl /\
    trace (exec (cycle cfg o) w) = trace w ++ dtl ++ [Sleep 3600] /\
    fs (exec (cycle cfg o) w) = written o (PyStr.str current) (fs w).
Proof.
  intros Hr Hl Hlt.
  destruct (cycle_run cfg o w last ident name (VInt current) Hr Hl) as (dl & dtl & Hdtl & E).
  exists dtl. split; [assumption|].
  unfold exec. rewrite E. cbn [snd].
  pose proof (read_last_count_fits o _ w last Hr) as Hfl.
  destruct (lookup_formattable cfg o w ident name _ Hl ltac:(discriminate)) as [Hfn Hfc].
  rewrite (decide_decrease cfg o _ last current ident name Hfl Hfc
             (lookup_ident cfg o w ident name _ Hl ltac:(discriminate)) Hlt).
  rewrite wind_up_trace, wind_up_fs, write_last_count_trace, write_last_count_fs by exact Hfc.
  cbn [fs trace py_str]. rewrite <- !app_assoc. split; reflexivity.
Qed.

(** The whole iteration when the lookup gave no count. *)
Lemma cycle_no_count cfg o w ident name :
  eval (lookup cfg o) w = Return (ident, (name, VNone)) ->
  exists dl dtl,
    Forall (fun ev => is_scholar_event ev = true) dtl /\
    eval (cycle cfg o) w = Return tt /\
    trace (exec (cycle cfg o) w) = trace w ++ dtl ++ [Sleep 3600] /\
    fs (exec (cycle cfg o) w) = fs w /\
    log (exec (cycle cfg o) w) =
      log w ++ dl
      ++ (if String.eqb ident "N/A" then []
          else [(WARNING, "Could not retrieve citation count for " +:+ ident
                          +:+ ". No comparison or email sent this cycle.")])
      ++ [ (INFO, "--- Citation Check Cycle Finished ---");
           (INFO, "Waiting for 1 hour before next check...") ].
Proof.
  intros Hl.
  destruct (read_last_count_shape o LAST_COUNT_FILE w) as (last & dlr & Er & _).
  assert (eval (read_last_count o LAST_COUNT_FILE) w = Return last) as Hr
    by (unfold eval; now rewrite Er).
  destruct (cycle_run cfg o w last ident name VNone Hr Hl) as (dl & dtl & Hdtl & E).
  exists dl, dtl. split; [assumption|].
  unfold eval, exec. rewrite E. cbn [fst snd]. rewrite decide_no_count.
  rewrite wind_up_trace, wind_up_fs. unfold wind_up. cbn [fst snd].
  destruct (String.eqb ident "N/A"); cbn [fs log trace app];
    rewrite <- ?app_assoc; repeat split; reflexivity.
Qed.

Lemma scholar_not_notifier evs :
  Forall (fun ev => is_scholar_event ev = true) evs ->
  Forall (fun ev => is_notifier_event ev = false) evs.
Proof. intros H. eapply Forall_impl; [exact H|]. intros []; cbn; congruence. Qed.

(** An iteration never raises: the outer [except Exception] catches what
    the check lets through. *)
Lemma cycle_never_raises cfg o w : eval (cycle cfg o) w = Return tt.
Proof.
  unfold eval, cycle. unfold_m.
  destruct (check cfg o w) as [[[]|e] w1]; reflexivity.
Qed.

(** So the loop goes from one iteration to the next. *)
Lemma run_step cfg o os w :
  run cfg (o :: os) w = run cfg os (exec (cycle cfg o) w).
Proof.
  cbn [run]. unfold mbind, M_bind, bind, exec.
  pose proof (cycle_never_raises cfg o w) as H. unfold eval in H.
  destruct (cycle cfg o w) as [r w1]. cbn in *. now subst r.
Qed.

(** ** The orchestrator *)

(** C1, as the code has it.  Take a cycle that reads the persisted count
    [last] from the store and whose looked-up count [current] exceeds it.
    If the send does not succeed, the files are left untouched, the
    persisted count is still [last], and a following cycle that reads [last]
    and again looks up a count above it calls the notifier again, with the
    increase recomputed against [last].  The persisted count becomes
    [current] if and only if the send succeeded, provided the write of the
    store that follows a successful send meets no I/O fault.  The increase
    is one that the subject line can show: it has at most 4300 digits. *)
Theorem increase_persisted_iff_sent cfg o w last current ident name r :
  persisted w = last ->
  eval (read_last_count o LAST_COUNT_FILE) w = Return last ->
  eval (lookup cfg o) w = Return (ident, (name, VInt current)) ->
  last < current ->
  current - last < 10 ^ PyStr.max_str_digits ->
  eval (notify cfg o (increase_subject name (current - last))
          (increase_body o ident name (VInt current) last (current - last))) w = r ->
  let w' := exec (cycle cfg o) w in
  (o_write_fault o = None -> (persisted w' = current <-> r = Return true)) /\
  (r <> Return true ->
   fs w' = fs w /\ persisted w' = last /\
   forall o2 ident2 name2 current2,
     eval (read_last_count o2 LAST_COUNT_FILE) w' = Return last ->
     eval (lookup cfg o2) w' = Return (ident2, (name2, VInt current2)) ->
     last < current2 ->
     current2 - last < 10 ^ PyStr.max_str_digits ->
     CallSendEmail (increase_subject name2 (current2 - last))
       (increase_body o2 ident2 name2 (VInt current2) last (current2 - last))
     ∈ new_events (cycle cfg o2) w').
Proof.
  intros Hp Hr Hl Hlt Hi Hn w'.
  destruct (cycle_increase cfg o w last current ident name Hr Hl Hlt
              (fits_increase _ _ Hlt Hi))
    as (dtl & dts & _ & _ & _ & Hfs).
  cbv zeta in Hfs. rewrite Hn in Hfs. fold w' in Hfs.
  assert (r <> Return true -> fs w' = fs w) as Hkeep.
  { intros Hne. rewrite Hfs. destruct r as [[]|e]; congruence. }
  split.
  - intros Hwf. split.
    + intros Hcur. destruct r as [[]|e]; [reflexivity | exfalso ..];
        rewrite (persisted_fs w' w) in Hcur by (apply Hkeep; discriminate); lia.
    + intros ->. apply persisted_written.
      * apply (lookup_formattable cfg o w ident name _ Hl). discriminate.
      * rewrite Hfs. unfold written. rewrite Hwf. apply lookup_insert_eq.
  - intros Hne. specialize (Hkeep Hne).
    split; [assumption|]. split; [now rewrite (persisted_fs w' w Hkeep)|].
    intros o2 ident2 name2 current2 Hr2 Hl2 Hlt2 Hi2.
    destruct (cycle_increase cfg o2 w' last current2 ident2 name2 Hr2 Hl2 Hlt2
                (fits_increase _ _ Hlt2 Hi2))
      as (dtl2 & dts2 & _ & _ & Htr & _).
    rewrite (new_events_app _ _ _ Htr). set_solver.
Qed.

Lemma increase_persisted_iff_sent_witness :
  let cfg := Sample.cfg in
  let o := Sample.bad_login (Sample.ada 15) in
  let w := Sample.stored "10" in
  let w' := exec (cycle cfg o) w in
  (persisted w = 10 /\
   eval (read_last_count o LAST_COUNT_FILE) w = Return 10 /\
   eval (lookup cfg o) w = Return ("Name: Ada Lovelace", (VStr "Ada Lovelace", VInt 15)) /\
   10 < 15 /\
   15 - 10 < 10 ^ PyStr.max_str_digits /\
   eval (notify cfg o (increase_subject (VStr "Ada Lovelace") (15 - 10))
           (increase_body o "Name: Ada Lovelace" (VStr "Ada Lovelace") (VInt 15) 10 (15 - 10))) w
   = Return false) /\
  (o_write_fault o = None -> (persisted w' = 15 <-> Return false = Return true)) /\
  (Return false <> Return true ->
   fs w' = fs w /\ persisted w' = 10 /\
   forall o2 ident2 name2 current2,
     eval (read_last_count o2 LAST_COUNT_FILE) w' = Return 10 ->
     eval (lookup cfg o2) w' = Return (ident2, (name2, VInt current2)) ->
     10 < current2 ->
     current2 - 10 < 10 ^ PyStr.max_str_digits ->
     CallSendEmail (increase_subject name2 (current2 - 10))
       (increase_body o2 ident2 name2 (VInt current2) 10 (current2 - 10))
     ∈ new_events (cycle cfg o2) w').
Proof.
  cbv zeta. split.
  - repeat split; vm_compute; reflexivity.
  - apply (increase_persisted_iff_sent Sample.cfg (Sample.bad_login (Sample.ada 15))
             (Sample.stored "10") 10 15 "Name: Ada Lovelace" (VStr "Ada Lovelace")
             (Return false)); vm_compute; reflexivity.
Defined.

(** C1, as stated, fails: the send succeeds, the write of the store is
    refused, and the persisted count stays at 10 instead of becoming 15. *)
Lemma increase_lost_on_write_fault :
  let cfg := Sample.cfg in
  let o := Sample.no_write (Sample.ada 15) in
  let w := Sample.stored "10" in
  persisted w = 10 /\
  eval (read_last_count o LAST_COUNT_FILE) w = Return 10 /\
  eval (lookup cfg o) w = Return ("Name: Ada Lovelace", (VStr "Ada Lovelace", VInt 15)) /\
  eval (notify cfg o (increase_subject (VStr "Ada Lovelace") (15 - 10))
          (increase_body o "Name: Ada Lovelace" (VStr "Ada Lovelace") (VInt 15) 10 (15 - 10))) w
  = Return true /\
  persisted (exec (cycle cfg o) w) = 10 /\
  ~ (persisted (exec (cycle cfg o) w) = 15 <->
     eval (notify cfg o (increase_subject (VStr "Ada Lovelace") (15 - 10))
             (increase_body o "Name: Ada Lovelace" (VStr "Ada Lovelace") (VInt 15) 10 (15 - 10))) w
     = Return true).
Proof.
  cbv zeta.
  assert (persisted (exec (cycle Sample.cfg (Sample.no_write (Sample.ada 15)))
                       (Sample.stored "10")) = 10) as Hp by (vm_compute; reflexivity).
  repeat split; try (vm_compute; reflexivity).
  rewrite Hp. intros [_ H]. discriminate H. vm_compute. reflexivity.
Qed.

(** C5, as the code has it.  In a cycle whose lookup yields a count
    [current] below the count [last] that the cycle read, no event of the
    notifier occurs (neither a call of [send_email] nor any SMTP step) and
    [write_last_count] is run on [current] at once; the persisted count
    becomes [current] provided that write meets no fault. *)
Theorem decrease_persisted_quietly cfg o w last current ident name :
  eval (read_last_count o LAST_COUNT_FILE) w = Return last ->
  eval (lookup cfg o) w = Return (ident, (name, VInt current)) ->
  current < last ->
  let w' := exec (cycle cfg o) w in
  Forall (fun ev => is_notifier_event ev = false) (new_events (cycle cfg o) w) /\
  fs w' = written o (PyStr.str current) (fs w) /\
  (o_write_fault o = None -> persisted w' = current).
Proof.
  intros Hr Hl Hlt w'.
  destruct (cycle_decrease cfg o w last current ident name Hr Hl Hlt)
    as (dtl & Hdtl & Htr & Hfs).
  split; [|split].
  - rewrite (new_events_app _ _ _ Htr). apply Forall_app. split.
    + now apply scholar_not_notifier.
    + repeat constructor.
  - exact Hfs.
  - intros Hwf. apply persisted_written.
    + apply (lookup_formattable cfg o w ident name _ Hl). discriminate.
    + fold w' in Hfs. rewrite Hfs. unfold written. rewrite Hwf. apply lookup_insert_eq.
Qed.

Lemma decrease_persisted_quietly_witness :
  let cfg := Sample.cfg in
  let o := calm (Sample.ada 8) in
  let w := Sample.stored "10" in
  let w' := exec (cycle cfg o) w in
  (eval (read_last_count o LAST_COUNT_FILE) w = Return 10 /\
   eval (lookup cfg o) w = Return ("Name: Ada Lovelace", (VStr "Ada Lovelace", VInt 8)) /\
   8 < 10) /\
  Forall (fun ev => is_notifier_event ev = false) (new_events (cycle cfg o) w) /\
  fs w' = written o (PyStr.str 8) (fs w) /\
  (o_write_fault o = None -> persisted w' = 8).
Proof.
  cbv zeta. split.
  - repeat split; vm_compute; reflexivity.
  - apply (decrease_persisted_quietly Sample.cfg (calm (Sample.ada 8)) (Sample.stored "10")
             10 8 "Name: Ada Lovelace" (VStr "Ada Lovelace")); vm_compute; reflexivity.
Defined.

(** C5, as stated, fails: the lookup yields 8 below the stored 10, the
    write of the store is refused, and the persisted count stays at 10. *)
Lemma decrease_lost_on_write_fault :
  let cfg := Sample.cfg in
  let o := Sample.no_write (Sample.ada 8) in
  let w := Sample.stored "10" in
  eval (read_last_count o LAST_COUNT_FILE) w = Return 10 /\
  eval (lookup cfg o) w = Return ("Name: Ada Lovelace", (VStr "Ada Lovelace", VInt 8)) /\
  8 < 10 /\
  persisted (exec (cycle cfg o) w) = 10 /\
  persisted (exec (cycle cfg o) w) <> 8.
Proof.
  cbv zeta.
  assert (persisted (exec (cycle Sample.cfg (Sample.no_write (Sample.ada 8)))
                       (Sample.stored "10")) = 10) as Hp by (vm_compute; reflexivity).
  repeat split; try (vm_compute; reflexivity). rewrite Hp. discriminate.
Qed.

(** C6.  In a cycle whose lookup yields no count, the files are left as
    they were, so the persisted count is unchanged; no event of the notifier
    occurs; the cycle logs a warning naming the search and ends, without
    raising, in the sleep of one hour. *)
Theorem lookup_failure_is_noop cfg o w ident name :
  eval (lookup cfg o) w = Return (ident, (name, VNone)) ->
  let w' := exec (cycle cfg o) w in
  eval (cycle cfg o) w = Return tt /\
  fs w' = fs w /\ persisted w' = persisted w /\
  Forall (fun ev => is_notifier_event ev = false) (new_events (cycle cfg o) w) /\
  last (new_events (cycle cfg o) w) = Some (Sleep 3600) /\
  (ident <> "N/A" ->
   (WARNING, "Could not retrieve citation count for " +:+ ident
             +:+ ". No comparison or email sent this cycle.")
   ∈ new_log (cycle cfg o) w).
Proof.
  intros Hl w'.
  destruct (cycle_no_count cfg o w ident name Hl) as (dl & dtl & Hdtl & Hev & Htr & Hfs & Hlog).
  split; [exact Hev|]. split; [exact Hfs|]. split; [now apply persisted_fs|].
  rewrite (new_events_app _ _ _ Htr), (new_log_app _ _ _ Hlog).
  split; [|split].
  - apply Forall_app. split; [now apply scholar_not_notifier | repeat constructor].
  - apply last_snoc.
  - intros Hne. apply String.eqb_neq in Hne. rewrite Hne. set_solver.
Qed.

Lemma lookup_failure_is_noop_witness :
  let cfg := Sample.cfg in
  let o := Sample.not_found in
  let w := Sample.stored "10" in
  let w' := exec (cycle cfg o) w in
  eval (lookup cfg o) w = Return ("Name: Ada Lovelace", (VStr "Ada Lovelace", VNone)) /\
  eval (cycle cfg o) w = Return tt /\
  fs w' = fs w /\ persisted w' = persisted w /\
  Forall (fun ev => is_notifier_event ev = false) (new_events (cycle cfg o) w) /\
  last (new_events (cycle cfg o) w) = Some (Sleep 3600) /\
  ("Name: Ada Lovelace" <> "N/A" ->
   (WARNING, "Could not retrieve citation count for " +:+ "Name: Ada Lovelace"
             +:+ ". No comparison or email sent this cycle.")
   ∈ new_log (cycle cfg o) w).
Proof.
  cbv zeta. split; [vm_compute; reflexivity|].
  apply (lookup_failure_is_noop Sample.cfg Sample.not_found (Sample.stored "10")
           "Name: Ada Lovelace" (VStr "Ada Lovelace")).
  vm_compute. reflexivity.
Defined.

(** * Further properties *)

(** ** The counter store, continued *)

Section StoreMore.

Lemma all_space_lstrip p pre t :
  all_chars p pre = true -> PyStr.lstrip p (pre +:+ t) = PyStr.lstrip p t.
Proof.
  induction pre as [|c r IH]; simpl; [reflexivity|].
  intros [Hc Hr]%andb_true_iff. rewrite Hc. now apply IH.
Qed.

Lemma all_space_rstrip_nil p post :
  all_chars p post = true -> PyStr.rstrip p post = EmptyString.
Proof.
  induction post as [|c r IH]; simpl; [reflexivity|].
  intros [Hc Hr]%andb_true_iff. rewrite (IH Hr), Hc. reflexivity.
Qed.

Lemma all_space_rstrip p s post :
  all_chars p post = true -> PyStr.rstrip p (s +:+ post) = PyStr.rstrip p s.
Proof.
  intros H. induction s as [|c r IH]; simpl.
  - now apply all_space_rstrip_nil.
  - now rewrite IH.
Qed.

Lemma str_no_space z :
  all_chars (fun c => negb (PyStr.isspace c)) (PyStr.str z) = true.
Proof.
  assert (forall c, is_digit c = true -> PyStr.isspace c = false) as Hd
    by (intros c Hc; apply (digit_facts c Hc)).
  destruct z as [|q|q].
  - reflexivity.
  - rewrite str_pos. now apply uint_no_space.
  - rewrite str_neg. cbn [all_chars]. rewrite uint_no_space by assumption. reflexivity.
Qed.

(** Blanks around the text of an integer are stripped away. *)
Lemma strip_padded pre post z :
  all_chars PyStr.isspace pre = true -> all_chars PyStr.isspace post = true ->
  PyStr.strip (pre +:+ PyStr.str z +:+ post) = PyStr.str z.
Proof.
  intros Hpre Hpost. unfold PyStr.strip, PyStr.strip_with.
  rewrite all_space_lstrip by assumption.
  pose proof (str_no_space z) as Hz. pose proof (str_nonempty z) as Hne.
  destruct (PyStr.str z) as [|c r] eqn:E; [discriminate Hne|].
  cbn [all_chars] in Hz. apply andb_true_iff in Hz as [Hc Hr].
  change (String c r +:+ post) with (String c (r +:+ post)).
  rewrite lstrip_keep by now apply negb_true_iff.
  change (String c (r +:+ post)) with (String c r +:+ post).
  rewrite all_space_rstrip by assumption.
  apply rstrip_keep. cbn [all_chars]. now rewrite Hc, Hr.
Qed.

End StoreMore.

(** X1.  A read is read-only: whatever the file holds and whatever fault
    it meets, [read_last_count] leaves every file as it was (an absent file
    is not created) and makes no outside call; it only logs. *)
Theorem read_last_count_read_only o filepath w :
  fs (exec (read_last_count o filepath) w) = fs w /\
  trace (exec (read_last_count o filepath) w) = trace w /\
  exists lines, log (exec (read_last_count o filepath) w) = log w ++ lines.
Proof.
  destruct (read_last_count_shape o filepath w) as (z & dl & E & _).
  unfold exec. rewrite E. cbn. eauto.
Qed.

(** X3.  A count file edited by hand still reads as its number: white space
    before and after the decimal text of an integer of at most 4300 digits
    (a trailing newline, indentation) is ignored by the read. *)
Theorem read_last_count_ignores_blanks o filepath w pre post z :
  Z.abs z < 10 ^ PyStr.max_str_digits ->
  o_read_fault o = None ->
  all_chars PyStr.isspace pre = true -> all_chars PyStr.isspace post = true ->
  fs w !! filepath = Some (pre +:+ PyStr.str z +:+ post) ->
  eval (read_last_count o filepath) w = Return z.
Proof.
  intros Hz Hf Hpre Hpost Ht. apply fits_iff in Hz.
  rewrite (read_last_count_text o filepath w _ Hf Ht).
  now rewrite strip_padded, int_str.
Qed.

Lemma read_last_count_ignores_blanks_witness :
  Z.abs 42 < 10 ^ PyStr.max_str_digits /\
  o_read_fault (calm ∅) = None /\
  all_chars PyStr.isspace "  " = true /\ all_chars PyStr.isspace nl = true /\
  fs (Sample.stored ("  " +:+ PyStr.str 42 +:+ nl)) !! LAST_COUNT_FILE
    = Some ("  " +:+ PyStr.str 42 +:+ nl) /\
  eval (read_last_count (calm ∅) LAST_COUNT_FILE)
       (Sample.stored ("  " +:+ PyStr.str 42 +:+ nl)) = Return 42.
Proof.
  split; [vm_compute; reflexivity|].
  split; [reflexivity|]. split; [reflexivity|]. split; [reflexivity|].
  split; [reflexivity|].
  apply (read_last_count_ignores_blanks (calm ∅) LAST_COUNT_FILE
           (Sample.stored ("  " +:+ PyStr.str 42 +:+ nl)) "  " nl 42);
    [vm_compute; reflexivity | reflexivity ..].
Defined.

(** ** The lookup, continued *)

(** What a reporting computation returns and adds to the trace can be read
    off its run in the empty world. *)
Lemma reports_probe {A} P (m : M A) w :
  reports P m ->
  eval m w = eval m (fresh ∅) /\ new_events m w = trace (exec m (fresh ∅)).
Proof.
  intros (r & dl & dt & Hw & _). unfold eval, new_events, exec, fresh.
  rewrite !Hw. cbn. split; [reflexivity|]. apply drop_app_length.
Qed.

(** Case analysis on everything a lookup or a send branches on. *)
Ltac crunch :=
  unfold_m; cbn;
  repeat (case_match; cbn; simplify_eq; try done).

(** X4.  [get_citation_count] never raises: whatever the Scholar client
    does, the call returns a pair. *)
Theorem get_citation_count_never_raises o author_name author_id w :
  exists who count,
    eval (get_citation_count o author_name author_id) w = Return (who, count).
Proof.
  unfold eval, get_citation_count, lookup_handlers, citation_result, dispatch, pat_matches.
  crunch; eauto.
Qed.

Lemma get_citation_count_events o author_name author_id w :
  new_events (get_citation_count o author_name author_id) w
  = scholar_calls o author_name author_id.
Proof.
  rewrite (proj2 (reports_probe _ _ w (get_citation_count_reports o author_name author_id))).
  unfold scholar_calls, exec, fresh, get_citation_count, lookup_handlers, citation_result,
    formatting, dispatch, pat_matches.
  destruct (truthy author_id); [|destruct (truthy author_name)];
    cbn [negb andb]; rewrite ?andb_false_r; crunch; reflexivity.
Qed.

(** X5.  One query per call, no retry: [get_citation_count] calls the
    Scholar client by ID (search, then fill) when an ID is given, otherwise
    by name (search, next, fill) when a name is given, and not at all with
    neither.  Each call is made once, in this order, and a call that fails
    is the last one made. *)
Theorem get_citation_count_one_query o author_name author_id w :
  new_events (get_citation_count o author_name author_id) w =
    if truthy author_id then
      ScholarSearchId author_id ::
      match o_search_id o with
      | Return _ => [ScholarFill]
      | Raise _ => []
      end
    else if truthy author_name then
      ScholarSearchName author_name ::
      match o_search_name o with
      | Some _ => []
      | None =>
          ScholarNext ::
          match o_next o with
          | Return _ => [ScholarFill]
          | Raise _ => []
          end
      end
    else [].
Proof. exact (get_citation_count_events o author_name author_id w). Qed.

(** X6.  When the Scholar client answers with a record, the count returned
    is the record's [citedby] entry, [None] when it has none; the display
    name is its [name] entry, 'N/A' when it has none, and 'Unknown Author'
    when the record is empty.  One case is different: a record with a
    [citedby] entry whose name or count is an integer of more than 4300
    digits cannot be formatted for the log line, and the lookup fails with
    the text of the search and [None]. *)
Theorem get_citation_count_found o author_name author_id info w :
  lookup_finds o author_name author_id info ->
  eval (get_citation_count o author_name author_id) w =
    let name := dict_get info "name" (VStr "N/A") in
    let citations := dict_get info "citedby" VNone in
    if dict_truthy info && dict_has info "citedby"
       && negb (formattable name && formattable citations)
    then Return (VStr (if truthy author_id then "ID: " +:+ py_str author_id
                       else "Name: " +:+ py_str author_name), VNone)
    else Return (if dict_truthy info then name else VStr "Unknown Author", citations).
Proof.
  intros H. cbv zeta.
  assert (Hc : dict_has info "citedby" = false -> dict_get info "citedby" VNone = VNone).
  { unfold dict_has, dict_get. destruct (info !! "citedby"); [|reflexivity].
    intros E. apply bool_decide_eq_false in E. destruct E. eauto. }
  assert (He : dict_truthy info = false -> dict_has info "citedby" = false).
  { unfold dict_truthy, dict_has. intros E. apply negb_false_iff, bool_decide_eq_true in E.
    subst info. rewrite lookup_empty. apply bool_decide_eq_false. now intros [x Hx]. }
  unfold eval, get_citation_count, citation_result, formatting.
  destruct H as [found Hid Hs Hf | found Hid Hn Hs Hx Hf];
    rewrite Hid, ?Hn, ?andb_false_r; cbn [negb andb]; unfold_m; cbn;
    rewrite Hs, ?Hx; cbn; rewrite Hf; cbn.
  all: destruct (dict_truthy info) eqn:Et;
    [ destruct (dict_has info "citedby") eqn:Eh | rewrite (He eq_refl), (Hc (He eq_refl)) ];
    cbn; rewrite ?andb_true_r, ?(Hc eq_refl); try reflexivity.
  all: destruct (formattable (dict_get info "name" (VStr "N/A"))
                 && formattable (dict_get info "citedby" VNone)); reflexivity.
Qed.

Lemma get_citation_count_found_witness :
  lookup_finds (calm (Sample.ada 15)) (VStr "Ada Lovelace") VNone (Sample.ada 15) /\
  eval (get_citation_count (calm (Sample.ada 15)) (VStr "Ada Lovelace") VNone)
       Sample.empty_world =
    Return (VStr "Ada Lovelace", VInt 15).
Proof.
  assert (lookup_finds (calm (Sample.ada 15)) (VStr "Ada Lovelace") VNone (Sample.ada 15))
    as H by (apply (finds_by_name _ _ _ _ (Sample.ada 15)); reflexivity).
  split; [exact H|].
  exact (get_citation_count_found _ _ _ _ Sample.empty_world H).
Defined.

(** X7.  With neither a name nor an ID, [get_citation_count] returns
    [(None, None)] after one error line and does not call the Scholar client. *)
Theorem get_citation_count_nothing_to_search o author_name author_id w :
  truthy author_name = false -> truthy author_id = false ->
  get_citation_count o author_name author_id w =
    (Return (VNone, VNone),
     World (fs w)
           (log w ++ [(ERROR, "Either author_name or author_id must be provided.")])
           (trace w)).
Proof.
  intros Hn Hi. unfold get_citation_count. rewrite Hn, Hi. reflexivity.
Qed.

Lemma get_citation_count_nothing_to_search_witness :
  truthy (VStr "") = false /\ truthy VNone = false /\
  get_citation_count (calm ∅) (VStr "") VNone Sample.empty_world =
    (Return (VNone, VNone),
     World ∅ [(ERROR, "Either author_name or author_id must be provided.")] []).
Proof.
  split; [reflexivity|]. split; [reflexivity|].
  exact (get_citation_count_nothing_to_search (calm ∅) (VStr "") VNone Sample.empty_world
           eq_refl eq_refl).
Defined.

(** X8.  The ID takes priority: when [AUTHOR_ID] is set (and not empty) the
    cycle's lookup searches by ID only, even if a name is configured too,
    and reports the search as 'ID: ...'. *)
Theorem lookup_prefers_id cfg o w :
  truthy (AUTHOR_ID cfg) = true ->
  (exists who count,
     eval (lookup cfg o) w = Return ("ID: " +:+ py_str (AUTHOR_ID cfg), (who, count))) /\
  new_events (lookup cfg o) w `prefix_of` [ScholarSearchId (AUTHOR_ID cfg); ScholarFill].
Proof.
  intros Hid.
  destruct (reports_probe _ _ w (lookup_reports cfg o)) as [-> ->].
  unfold eval, exec, fresh, lookup, get_citation_count, lookup_handlers, citation_result,
    formatting, dispatch, pat_matches.
  rewrite Hid. cbn [negb andb]. rewrite andb_false_r.
  split; crunch; eauto; eexists; reflexivity.
Qed.

Lemma lookup_prefers_id_witness :
  let cfg := Config (VStr "Ada Lovelace") (VStr "abc123") (VStr "smtp.gmail.com") 587
                    VNone VNone VNone in
  truthy (AUTHOR_ID cfg) = true /\
  (exists who count,
     eval (lookup cfg (calm (Sample.ada 15))) Sample.empty_world
     = Return ("ID: " +:+ py_str (AUTHOR_ID cfg), (who, count))) /\
  new_events (lookup cfg (calm (Sample.ada 15))) Sample.empty_world
  `prefix_of` [ScholarSearchId (AUTHOR_ID cfg); ScholarFill].
Proof.
  cbv zeta. split; [reflexivity|].
  apply (lookup_prefers_id
           (Config (VStr "Ada Lovelace") (VStr "abc123") (VStr "smtp.gmail.com") 587
                   VNone VNone VNone)).
  reflexivity.
Defined.

(** ** The notifier, continued *)

Ltac sublist_solve :=
  repeat first [ apply sublist_nil | apply sublist_skip | apply sublist_cons ].

Ltac unfold_send :=
  unfold send_email, with_smtp, try_except, guarded, external, dispatch, pat_matches.

(** Run a send whose environment has been split into cases. *)
Ltac run_send := unfold_m; cbn; repeat (case_match; cbn).

(** Close an equivalence between an equation of outcomes and a
    conjunction of equations. *)
Ltac settle_iff :=
  let Hiff := fresh "Hiff" in
  split; intros Hiff; [repeat split | decompose [and] Hiff]; congruence.

(** X9.  [send_email] returns [True] exactly when every parameter is
    present and every step succeeds: building the message, connecting,
    STARTTLS, login, sending and the closing QUIT.  In particular it never
    reports success for a message that was not handed to the server. *)
Theorem send_email_true_iff o subject body sender password receiver server port w :
  eval (send_email o subject body sender password receiver server port) w = Return true
  <->
  forallb truthy [sender; password; receiver; server; port] = true /\
  o_message o = None /\ o_connect o = None /\ o_starttls o = None /\
  o_login o = None /\ o_send o = None /\ o_quit o = None.
Proof.
  unfold eval. unfold_send.
  destruct (forallb truthy [sender; password; receiver; server; port]);
    destruct (o_message o), (o_connect o), (o_starttls o), (o_login o), (o_send o),
      (o_quit o);
    run_send; settle_iff.
Qed.

(** X10.  [send_email] lets an exception through in one case only: all
    parameters are present and building the message fails (those statements
    stand before the [try]).  Everything from the connection on is turned
    into [False]. *)
Theorem send_email_raises_iff o subject body sender password receiver server port w e :
  eval (send_email o subject body sender password receiver server port) w = Raise e
  <->
  forallb truthy [sender; password; receiver; server; port] = true /\
  o_message o = Some e.
Proof.
  unfold eval. unfold_send.
  destruct (forallb truthy [sender; password; receiver; server; port]);
    destruct (o_message o), (o_connect o), (o_starttls o), (o_login o), (o_send o),
      (o_quit o);
    run_send; settle_iff.
Qed.

(** The steps of a send, for use in the proofs about whole cycles. *)
Lemma send_email_steps o subject body sender password receiver server port :
  exists r dl steps,
    writes (send_email o subject body sender password receiver server port)
           r dl (CallSendEmail subject body :: steps) /\
    Forall (fun ev => is_notifier_event ev = true) steps /\
    steps `sublist_of` smtp_dialogue subject body sender password receiver server port.
Proof.
  destruct (send_email_reports o subject body sender password receiver server port)
    as (r & dl & dt & Hw & Hdt).
  exists r, dl, dt. split; [exact Hw|]. split; [exact Hdt|].
  specialize (Hw (fresh ∅)). revert Hw. unfold fresh, smtp_dialogue. unfold_send.
  destruct (forallb truthy [sender; password; receiver; server; port]);
    destruct (o_message o), (o_connect o), (o_starttls o), (o_login o), (o_send o),
      (o_quit o);
    run_send; intros [= <- <- <-]; sublist_solve.
Qed.

(** X11.  The SMTP steps of one call come in the order connect, STARTTLS,
    login, send, QUIT, each at most once; no step is repeated and none is
    taken out of order. *)
Theorem send_email_dialogue o subject body sender password receiver server port w :
  exists steps,
    new_events (send_email o subject body sender password receiver server port) w
      = CallSendEmail subject body :: steps /\
    steps `sublist_of` smtp_dialogue subject body sender password receiver server port.
Proof.
  destruct (send_email_steps o subject body sender password receiver server port)
    as (r & dl & steps & Hw & _ & Hsub).
  exists steps. split; [|exact Hsub].
  apply new_events_app. unfold exec. now rewrite Hw.
Qed.

(** With a parameter missing, a send only logs the refusal. *)
Lemma send_email_refuses o subject body sender password receiver server port :
  forallb truthy [sender; password; receiver; server; port] = false ->
  writes (send_email o subject body sender password receiver server port)
         (Return false)
         [(ERROR, "Email configuration is incomplete. Cannot send email.")]
         [CallSendEmail subject body].
Proof. intros Hall w. unfold send_email. unfold_m. rewrite Hall. reflexivity. Qed.

(** X12.  A connection that was opened is closed: when the connection
    succeeds, the last step of the call is QUIT, whatever fails in between. *)
Theorem send_email_closes_connection o subject body sender password receiver server port w :
  o_connect o = None ->
  SmtpConnect server port
    ∈ new_events (send_email o subject body sender password receiver server port) w ->
  last (new_events (send_email o subject body sender password receiver server port) w)
    = Some SmtpQuit.
Proof.
  intros Hc.
  destruct (send_email_reports o subject body sender password receiver server port)
    as (r & dl & dt & Hw & _).
  rewrite (new_events_app _ w (CallSendEmail subject body :: dt))
    by (unfold exec; now rewrite Hw).
  specialize (Hw (fresh ∅)). revert Hw. unfold fresh. unfold_send. rewrite Hc.
  destruct (forallb truthy [sender; password; receiver; server; port]);
    destruct (o_message o), (o_starttls o), (o_login o), (o_send o), (o_quit o);
    run_send; intros [= <- <- <-] Hin;
    first [ reflexivity
          | exfalso; apply list_elem_of_In in Hin; cbn in Hin; intuition congruence ].
Qed.

Lemma send_email_closes_connection_witness :
  let o := Sample.bad_login ∅ in
  let send := send_email o "subject" "body" (VStr "me@example.org") (VStr "wrong")
                (VStr "you@example.org") (VStr "smtp.gmail.com") (VInt 587) in
  o_connect o = None /\
  SmtpConnect (VStr "smtp.gmail.com") (VInt 587) ∈ new_events send Sample.empty_world /\
  last (new_events send Sample.empty_world) = Some SmtpQuit.
Proof.
  cbv zeta.
  assert (SmtpConnect (VStr "smtp.gmail.com") (VInt 587)
          ∈ new_events (send_email (Sample.bad_login ∅) "subject" "body"
                          (VStr "me@example.org") (VStr "wrong") (VStr "you@example.org")
                          (VStr "smtp.gmail.com") (VInt 587)) Sample.empty_world) as Hin
    by (vm_compute; apply list_elem_of_In; simpl; auto).
  split; [reflexivity|]. split; [exact Hin|].
  exact (send_email_closes_connection (Sample.bad_login ∅) "subject" "body"
           (VStr "me@example.org") (VStr "wrong") (VStr "you@example.org")
           (VStr "smtp.gmail.com") (VInt 587) Sample.empty_world eq_refl Hin).
Defined.

(** X13.  Rejected credentials: when the login raises
    [SMTPAuthenticationError], [send_email] returns [False], logs the hint
    about the sender's password, sends no message and still closes the
    connection. *)
Theorem send_email_bad_credentials o subject body sender password receiver server port w e :
  forallb truthy [sender; password; receiver; server; port] = true ->
  o_message o = None -> o_connect o = None -> o_starttls o = None -> o_quit o = None ->
  o_login o = Some e -> exn_cls e = SMTPAuthenticationError ->
  send_email o subject body sender password receiver server port w =
    (Return false,
     World (fs w)
       (log w ++
        [ (INFO, "Connecting to SMTP server " +:+ py_str server +:+ ":" +:+ py_str port);
          (INFO, "Logging into SMTP server...");
          (ERROR, "SMTP Authentication Error: Check sender email/password (or App Password for Gmail).") ])
       (trace w ++
        [ CallSendEmail subject body; SmtpConnect server port; SmtpStartTls;
          SmtpLogin sender password; SmtpQuit ])).
Proof.
  intros Hall Hm Hc Ht Hq Hl Hcls. unfold_send. unfold_m.
  rewrite Hall, Hm, Hc, Ht, Hl, Hq. cbn. rewrite Hcls. cbn.
  rewrite <- !app_assoc. reflexivity.
Qed.

Lemma send_email_bad_credentials_witness :
  let o := Sample.bad_login ∅ in
  (forallb truthy [VStr "me@example.org"; VStr "wrong"; VStr "you@example.org";
                   VStr "smtp.gmail.com"; VInt 587] = true /\
   o_message o = None /\ o_connect o = None /\ o_starttls o = None /\ o_quit o = None /\
   o_login o = Some (Exn SMTPAuthenticationError "535 bad credentials") /\
   exn_cls (Exn SMTPAuthenticationError "535 bad credentials") = SMTPAuthenticationError) /\
  send_email o "subject" "body" (VStr "me@example.org") (VStr "wrong")
    (VStr "you@example.org") (VStr "smtp.gmail.com") (VInt 587) Sample.empty_world =
    (Return false,
     World (fs Sample.empty_world)
       (log Sample.empty_world ++
        [ (INFO, "Connecting to SMTP server " +:+ py_str (VStr "smtp.gmail.com") +:+ ":"
                 +:+ py_str (VInt 587));
          (INFO, "Logging into SMTP server...");
          (ERROR, "SMTP Authentication Error: Check sender email/password (or App Password for Gmail).") ])
       (trace Sample.empty_world ++
        [ CallSendEmail "subject" "body"; SmtpConnect (VStr "smtp.gmail.com") (VInt 587);
          SmtpStartTls; SmtpLogin (VStr "me@example.org") (VStr "wrong"); SmtpQuit ])).
Proof.
  cbv zeta. split; [repeat split; reflexivity|].
  apply (send_email_bad_credentials (Sample.bad_login ∅) "subject" "body"
           (VStr "me@example.org") (VStr "wrong") (VStr "you@example.org")
           (VStr "smtp.gmail.com") (VInt 587) Sample.empty_world
           (Exn SMTPAuthenticationError "535 bad credentials")); reflexivity.
Defined.

(** ** The check cycle, continued *)

(** The lookup of a cycle never raises. *)
Lemma lookup_total cfg o :
  exists ident name total dl dt,
    writes (lookup cfg o) (Return (ident, (name, total))) dl dt /\
    Forall (fun ev => is_scholar_event ev = true) dt.
Proof.
  destruct (lookup_reports cfg o) as (r & dl & dt & Hw & Hdt).
  assert (exists ident name total, r = Return (ident, (name, total))) as (i & n & t & ->).
  { specialize (Hw (fresh ∅)). revert Hw.
    unfold fresh, lookup, get_citation_count, lookup_handlers, citation_result, dispatch,
      pat_matches.
    crunch; intros; simplify_eq; eauto. }
  eauto 8.
Qed.

(** The iteration up to the comparison, with the output of the lookup
    made explicit. *)
Lemma cycle_run_from cfg o w last ident name total dll dtl :
  eval (read_last_count o LAST_COUNT_FILE) w = Return last ->
  writes (lookup cfg o) (Return (ident, (name, total))) dll dtl ->
  exists dlr,
    cycle cfg o w =
      (Return tt,
       wind_up (decide_and_act cfg o last ident name total
                  (World (fs w)
                     (log w ++ (INFO, "--- Starting Hourly Citation Check ---") :: dlr
                      ++ (INFO, "Last known citation count: " +:+ PyStr.str last) :: dll)
                     (trace w ++ dtl)))).
Proof.
  intros Hr Hwl.
  set (w0 := World (fs w) (log w ++ [(INFO, "--- Starting Hourly Citation Check ---")]) (trace w)).
  destruct (read_last_count_shape o LAST_COUNT_FILE w0) as (z & dlr & Er & _).
  assert (z = last) as ->.
  { pose proof (read_last_count_fs o LAST_COUNT_FILE w0 w eq_refl) as E.
    unfold eval in E at 1. rewrite Er, Hr in E. now injection E. }
  exists dlr.
  pose proof (read_last_count_fits o LAST_COUNT_FILE w last Hr) as Hfit.
  unfold cycle, check. unfold_m. fold w0. rewrite Er. cbn [fs log trace].
  rewrite formatting_ok by fmt_ok.
  rewrite Hwl. cbn [fst snd fs log trace]. subst w0. cbn [fs log trace].
  rewrite <- !app_assoc. cbn [app].
  destruct (decide_and_act _ _ _ _ _ _ _) as [[[]|e] w3];
    unfold wind_up, dispatch, pat_matches; cbn [fst snd fs log trace];
    rewrite <- ?app_assoc; reflexivity.
Qed.

Section CycleMore.

Variables (cfg : config) (o : oracle).

(** The comparison step when the count is the one already stored. *)
Lemma decide_equal w2 last ident name :
  PyStr.fits last = true ->
  String.eqb ident "N/A" = false ->
  decide_and_act cfg o last ident name (VInt last) w2 =
    (Return tt,
     World (fs w2)
       (log w2 ++ [(INFO, "Citation count (" +:+ PyStr.str last
                          +:+ ") has not changed since the last check.")])
       (trace w2)).
Proof.
  intros Hfl Hid. unfold decide_and_act. rewrite Hid. cbn [negb is_none py_gt py_eq py_str].
  unfold_m. rewrite Z.ltb_irrefl, Z.eqb_refl.
  rewrite formatting_ok by fmt_ok. reflexivity.
Qed.

(** The comparison step when the count is not an integer: the comparison
    raises and nothing else happens. *)
Lemma decide_not_a_number w2 last ident name total :
  String.eqb ident "N/A" = false ->
  total <> VNone -> (forall z, total <> VInt z) ->
  exists e, exn_cls e = TypeError /\
            decide_and_act cfg o last ident name total w2 = (Raise e, w2).
Proof.
  intros Hid Hnone Hint. unfold decide_and_act. rewrite Hid.
  destruct total as [|z|s|q]; [congruence | now destruct (Hint z) | ..];
    cbn; unfold_m; cbn; eexists; (split; [|reflexivity]); reflexivity.
Qed.

(** The comparison step when no author is configured. *)
Lemma decide_unconfigured w2 last name total :
  decide_and_act cfg o last "N/A" name total w2 = (Return tt, w2).
Proof. reflexivity. Qed.

End CycleMore.

(** The whole iteration when the count has not changed. *)
Lemma cycle_equal cfg o w last ident name :
  eval (read_last_count o LAST_COUNT_FILE) w = Return last ->
  eval (lookup cfg o) w = Return (ident, (name, VInt last)) ->
  exists dl dtl,
    Forall (fun ev => is_scholar_event ev = true) dtl /\
    exec (cycle cfg o) w =
      World (fs w)
        (log w ++ dl ++
         [ (INFO, "Citation count (" +:+ PyStr.str last
                  +:+ ") has not changed since the last check.");
           (INFO, "--- Citation Check Cycle Finished ---");
           (INFO, "Waiting for 1 hour before next check...") ])
        (trace w ++ dtl ++ [Sleep 3600]).
Proof.
  intros Hr Hl.
  destruct (lookup_total cfg o) as (i & n & t & dll & dtl & Hwl & Hdtl).
  pose proof (writes_eval _ _ _ _ w Hwl) as E. rewrite Hl in E. symmetry in E.
  injection E as -> -> ->.
  destruct (cycle_run_from cfg o w last ident name (VInt last) dll dtl Hr Hwl) as (dlr & Ec).
  rewrite (decide_equal cfg o _ last ident name
             (read_last_count_fits o _ w last Hr)
             (lookup_ident cfg o w ident name _ Hl ltac:(discriminate))) in Ec.
  unfold wind_up in Ec. cbn [fst snd fs log trace] in Ec.
  exists ((INFO, "--- Starting Hourly Citation Check ---") :: dlr
          ++ (INFO, "Last known citation count: " +:+ PyStr.str last) :: dll), dtl.
  split; [assumption|].
  unfold exec. rewrite Ec. cbn [snd]. rewrite <- !app_assoc. cbn [app]. reflexivity.
Qed.

(** X14.  When the looked-up count equals the count the cycle read, the
    cycle changes no file and makes no notifier call; it logs that the count
    has not changed. *)
Theorem cycle_equal_is_noop cfg o w last ident name :
  eval (read_last_count o LAST_COUNT_FILE) w = Return last ->
  eval (lookup cfg o) w = Return (ident, (name, VInt last)) ->
  let w' := exec (cycle cfg o) w in
  fs w' = fs w /\
  Forall (fun ev => is_notifier_event ev = false) (new_events (cycle cfg o) w) /\
  (INFO, "Citation count (" +:+ PyStr.str last +:+ ") has not changed since the last check.")
  ∈ new_log (cycle cfg o) w.
Proof.
  intros Hr Hl w'.
  destruct (cycle_equal cfg o w last ident name Hr Hl) as (dl & dtl & Hdtl & E).
  subst w'. split; [|split].
  - now rewrite E.
  - rewrite (new_events_app _ w (dtl ++ [Sleep 3600])) by now rewrite E.
    apply Forall_app. split; [now apply scholar_not_notifier | repeat constructor].
  - erewrite new_log_app by (rewrite E; reflexivity). set_solver.
Qed.

Lemma cycle_equal_is_noop_witness :
  let cfg := Sample.cfg in
  let o := calm (Sample.ada 10) in
  let w := Sample.stored "10" in
  (eval (read_last_count o LAST_COUNT_FILE) w = Return 10 /\
   eval (lookup cfg o) w = Return ("Name: Ada Lovelace", (VStr "Ada Lovelace", VInt 10))) /\
  fs (exec (cycle cfg o) w) = fs w /\
  Forall (fun ev => is_notifier_event ev = false) (new_events (cycle cfg o) w) /\
  (INFO, "Citation count (" +:+ PyStr.str 10 +:+ ") has not changed since the last check.")
  ∈ new_log (cycle cfg o) w.
Proof.
  cbv zeta. split; [split; vm_compute; reflexivity|].
  apply (cycle_equal_is_noop Sample.cfg (calm (Sample.ada 10)) (Sample.stored "10") 10
           "Name: Ada Lovelace" (VStr "Ada Lovelace")); vm_compute; reflexivity.
Defined.

(** X15.  A count that is text (the Scholar record holds a string where a
    number is expected) cannot be compared with the stored integer: the
    comparison raises [TypeError], the outer handler logs the error, and the
    cycle ends normally without touching any file and without a notifier
    call. *)
Theorem cycle_count_is_text cfg o w ident name s :
  eval (lookup cfg o) w = Return (ident, (name, VStr s)) ->
  let w' := exec (cycle cfg o) w in
  eval (cycle cfg o) w = Return tt /\
  fs w' = fs w /\
  Forall (fun ev => is_notifier_event ev = false) (new_events (cycle cfg o) w) /\
  (ERROR, "An unexpected error occurred during the check cycle: '>' not supported between instances of 'str' and 'int'")
  ∈ new_log (cycle cfg o) w.
Proof.
  intros Hl w'.
  destruct (read_last_count_shape o LAST_COUNT_FILE w) as (last & dl0 & Er & _).
  assert (eval (read_last_count o LAST_COUNT_FILE) w = Return last) as Hr
    by (unfold eval; now rewrite Er).
  destruct (lookup_total cfg o) as (i & n & t & dll & dtl & Hwl & Hdtl).
  pose proof (writes_eval _ _ _ _ w Hwl) as E. rewrite Hl in E. symmetry in E.
  injection E as -> -> ->.
  destruct (cycle_run_from cfg o w last ident name (VStr s) dll dtl Hr Hwl) as (dlr & Ec).
  assert (decide_and_act cfg o last ident name (VStr s)
            (World (fs w)
               (log w ++ (INFO, "--- Starting Hourly Citation Check ---") :: dlr
                ++ (INFO, "Last known citation count: " +:+ PyStr.str last) :: dll)
               (trace w ++ dtl))
          = (Raise (Exn TypeError "'>' not supported between instances of 'str' and 'int'"),
             World (fs w)
               (log w ++ (INFO, "--- Starting Hourly Citation Check ---") :: dlr
                ++ (INFO, "Last known citation count: " +:+ PyStr.str last) :: dll)
               (trace w ++ dtl))) as Ed.
  { unfold decide_and_act.
    rewrite (lookup_ident cfg o w ident name _ Hl ltac:(discriminate)). reflexivity. }
  rewrite Ed in Ec. unfold wind_up in Ec. cbn [fst snd fs log trace exn_msg] in Ec.
  subst w'. unfold eval, exec. split; [now rewrite Ec|]. split; [now rewrite Ec|]. split.
  - rewrite (new_events_app _ w (dtl ++ [Sleep 3600]))
      by (unfold exec; rewrite Ec; cbn; now rewrite <- app_assoc).
    apply Forall_app. split; [now apply scholar_not_notifier | repeat constructor].
  - erewrite new_log_app by (unfold exec; rewrite Ec; cbn; rewrite <- !app_assoc; reflexivity).
    cbn. set_solver.
Qed.

Lemma cycle_count_is_text_witness :
  let cfg := Sample.cfg in
  let o := calm {[ "name" := VStr "Ada Lovelace"; "citedby" := VStr "many" ]} in
  let w := Sample.stored "10" in
  eval (lookup cfg o) w = Return ("Name: Ada Lovelace", (VStr "Ada Lovelace", VStr "many")) /\
  eval (cycle cfg o) w = Return tt /\
  fs (exec (cycle cfg o) w) = fs w /\
  Forall (fun ev => is_notifier_event ev = false) (new_events (cycle cfg o) w) /\
  (ERROR, "An unexpected error occurred during the check cycle: '>' not supported between instances of 'str' and 'int'")
  ∈ new_log (cycle cfg o) w.
Proof.
  cbv zeta. split; [vm_compute; reflexivity|].
  apply (cycle_count_is_text Sample.cfg
           (calm {[ "name" := VStr "Ada Lovelace"; "citedby" := VStr "many" ]})
           (Sample.stored "10") "Name: Ada Lovelace" (VStr "Ada Lovelace") "many").
  vm_compute. reflexivity.
Defined.

(** X16.  No cycle ends the script: whatever happens inside, an iteration
    returns normally, its last log line announces the wait and its last
    call is the sleep of 3600 seconds. *)
Theorem cycle_always_sleeps cfg o w :
  eval (cycle cfg o) w = Return tt /\
  last (trace (exec (cycle cfg o) w)) = Some (Sleep 3600) /\
  last (log (exec (cycle cfg o) w)) = Some (INFO, "Waiting for 1 hour before next check...").
Proof.
  unfold eval, exec, cycle. unfold_m.
  destruct (check cfg o w) as [[[]|e] w1]; cbn; rewrite !last_snoc; auto.
Qed.

(** The whole iteration when the count has grown, from the output of the
    send. *)
Lemma cycle_increase_from cfg o w last current ident name r dls dts :
  eval (read_last_count o LAST_COUNT_FILE) w = Return last ->
  eval (lookup cfg o) w = Return (ident, (name, VInt current)) ->
  last < current -> PyStr.fits (current - last) = true ->
  writes (notify cfg o (increase_subject name (current - last))
            (increase_body o ident name (VInt current) last (current - last))) r dls dts ->
  exists dtl,
    Forall (fun ev => is_scholar_event ev = true) dtl /\
    new_events (lookup cfg o) w = dtl /\
    trace (exec (cycle cfg o) w) = trace w ++ dtl ++ dts ++ [Sleep 3600] /\
    fs (exec (cycle cfg o) w)
      = match r with
        | Return true => written o (PyStr.str current) (fs w)
        | _ => fs w
        end /\
    (r = Return false ->
     (ERROR, "Email failed to send. Last count file will not be updated.")
     ∈ new_log (cycle cfg o) w).
Proof.
  intros Hr Hl Hlt Hfi Hw.
  destruct (lookup_total cfg o) as (i & n & t & dll & dtl & Hwl & Hdtl).
  pose proof (writes_eval _ _ _ _ w Hwl) as E. rewrite Hl in E. symmetry in E.
  injection E as -> -> ->.
  destruct (cycle_run_from cfg o w last ident name (VInt current) dll dtl Hr Hwl)
    as (dlr & Ec).
  pose proof (read_last_count_fits o _ w last Hr) as Hfl.
  destruct (lookup_formattable cfg o w ident name _ Hl ltac:(discriminate)) as [Hfn Hfc].
  rewrite (decide_increase cfg o _ last current ident name r dls dts Hfl Hfc Hfn Hfi
             (lookup_ident cfg o w ident name _ Hl ltac:(discriminate)) Hlt Hw) in Ec.
  cbv zeta in Ec. exists dtl. split; [assumption|].
  split; [apply new_events_app; unfold exec; now rewrite Hwl|].
  unfold exec. rewrite Ec. cbn [snd].
  destruct r as [[]|e].
  - rewrite wind_up_trace, wind_up_fs, write_last_count_trace, write_last_count_fs by exact Hfc.
    cbn [fs trace py_str]. rewrite <- !app_assoc.
    split; [reflexivity|]. split; [reflexivity|]. discriminate.
  - rewrite wind_up_trace, wind_up_fs. cbn [fs trace]. rewrite <- !app_assoc.
    split; [reflexivity|]. split; [reflexivity|]. intros _.
    erewrite new_log_app
      by (unfold exec; rewrite Ec; unfold wind_up; cbn; rewrite <- !app_assoc; reflexivity).
    cbn. set_solver.
  - rewrite wind_up_trace, wind_up_fs. cbn [fs trace]. rewrite <- !app_assoc.
    split; [reflexivity|]. split; [reflexivity|]. discriminate.
Qed.

(** X17.  With an incomplete mail configuration (a missing address,
    credential or host, or port 0) an increase is never acknowledged: the
    cycle calls the notifier, which refuses without any SMTP step, and the
    count file is left untouched.  (The increase is one of at most 4300
    digits, as in C1.) *)
Theorem increase_with_incomplete_config cfg o w last current ident name :
  forallb truthy [SENDER_EMAIL cfg; SENDER_PASSWORD cfg; RECEIVER_EMAIL cfg;
                  SMTP_SERVER cfg; VInt (SMTP_PORT cfg)] = false ->
  eval (read_last_count o LAST_COUNT_FILE) w = Return last ->
  eval (lookup cfg o) w = Return (ident, (name, VInt current)) ->
  last < current ->
  current - last < 10 ^ PyStr.max_str_digits ->
  fs (exec (cycle cfg o) w) = fs w /\
  (exists dtl,
     Forall (fun ev => is_scholar_event ev = true) dtl /\
     new_events (cycle cfg o) w =
       dtl ++ [ CallSendEmail (increase_subject name (current - last))
                  (increase_body o ident name (VInt current) last (current - last));
                Sleep 3600 ]) /\
  (ERROR, "Email failed to send. Last count file will not be updated.")
  ∈ new_log (cycle cfg o) w.
Proof.
  intros Hall Hr Hl Hlt Hi.
  pose proof (send_email_refuses o (increase_subject name (current - last))
                (increase_body o ident name (VInt current) last (current - last))
                _ _ _ _ _ Hall) as Hw.
  fold (notify cfg o (increase_subject name (current - last))
          (increase_body o ident name (VInt current) last (current - last))) in Hw.
  destruct (cycle_increase_from cfg o w last current ident name _ _ _ Hr Hl Hlt
              (fits_increase _ _ Hlt Hi) Hw)
    as (dtl & Hdtl & _ & Htr & Hfs & Hlog).
  split; [exact Hfs|]. split; [|now apply Hlog].
  exists dtl. split; [assumption|]. now apply new_events_app.
Qed.

Lemma increase_with_incomplete_config_witness :
  let cfg := Config (VStr "Ada Lovelace") VNone (VStr "smtp.gmail.com") 587
                    VNone VNone VNone in
  let o := calm (Sample.ada 15) in
  let w := Sample.stored "10" in
  (forallb truthy [SENDER_EMAIL cfg; SENDER_PASSWORD cfg; RECEIVER_EMAIL cfg;
                   SMTP_SERVER cfg; VInt (SMTP_PORT cfg)] = false /\
   eval (read_last_count o LAST_COUNT_FILE) w = Return 10 /\
   eval (lookup cfg o) w = Return ("Name: Ada Lovelace", (VStr "Ada Lovelace", VInt 15)) /\
   10 < 15 /\ 15 - 10 < 10 ^ PyStr.max_str_digits) /\
  fs (exec (cycle cfg o) w) = fs w /\
  (exists dtl,
     Forall (fun ev => is_scholar_event ev = true) dtl /\
     new_events (cycle cfg o) w =
       dtl ++ [ CallSendEmail (increase_subject (VStr "Ada Lovelace") (15 - 10))
                  (increase_body o "Name: Ada Lovelace" (VStr "Ada Lovelace") (VInt 15) 10
                     (15 - 10));
                Sleep 3600 ]) /\
  (ERROR, "Email failed to send. Last count file will not be updated.")
  ∈ new_log (cycle cfg o) w.
Proof.
  cbv zeta. split; [repeat split; vm_compute; reflexivity|].
  apply (increase_with_incomplete_config
           (Config (VStr "Ada Lovelace") VNone (VStr "smtp.gmail.com") 587 VNone VNone VNone)
           (calm (Sample.ada 15)) (Sample.stored "10") 10 15 "Name: Ada Lovelace"
           (VStr "Ada Lovelace")); vm_compute; reflexivity.
Defined.

(** X18.  No second notice for an acknowledged count: after a cycle whose
    send succeeded and whose write met no fault, a following cycle that
    reads the store without fault and looks up the same count makes no
    notifier call and changes no file.  (The increase is one of at most
    4300 digits, as in C1.) *)
Theorem no_notice_after_acknowledgment cfg o w last current ident name :
  eval (read_last_count o LAST_COUNT_FILE) w = Return last ->
  eval (lookup cfg o) w = Return (ident, (name, VInt current)) ->
  last < current ->
  current - last < 10 ^ PyStr.max_str_digits ->
  eval (notify cfg o (increase_subject name (current - last))
          (increase_body o ident name (VInt current) last (current - last))) w
  = Return true ->
  o_write_fault o = None ->
  let w' := exec (cycle cfg o) w in
  forall o2 ident2 name2,
    o_read_fault o2 = None ->
    eval (lookup cfg o2) w' = Return (ident2, (name2, VInt current)) ->
    Forall (fun ev => is_notifier_event ev = false) (new_events (cycle cfg o2) w') /\
    fs (exec (cycle cfg o2) w') = fs w'.
Proof.
  intros Hr Hl Hlt Hi Hn Hwf w' o2 ident2 name2 Hrf2 Hl2.
  destruct (cycle_increase cfg o w last current ident name Hr Hl Hlt
              (fits_increase _ _ Hlt Hi))
    as (dtl & dts & _ & _ & _ & Hfs).
  cbv zeta in Hfs. rewrite Hn in Hfs. fold w' in Hfs.
  assert (persisted w' = current) as Hp.
  { apply persisted_written.
    - apply (lookup_formattable cfg o w ident name _ Hl). discriminate.
    - rewrite Hfs. unfold written. rewrite Hwf. apply lookup_insert_eq. }
  assert (eval (read_last_count o2 LAST_COUNT_FILE) w' = Return current) as Hr2
    by (rewrite <- Hp; now apply persisted_read).
  destruct (cycle_equal cfg o2 w' current ident2 name2 Hr2 Hl2) as (dl & dtl2 & Hdtl2 & E).
  split; [|now rewrite E].
  rewrite (new_events_app _ w' (dtl2 ++ [Sleep 3600])) by now rewrite E.
  apply Forall_app. split; [now apply scholar_not_notifier | repeat constructor].
Qed.

Lemma no_notice_after_acknowledgment_witness :
  let cfg := Sample.cfg in
  let o := calm (Sample.ada 15) in
  let w := Sample.stored "10" in
  let w' := exec (cycle cfg o) w in
  (eval (read_last_count o LAST_COUNT_FILE) w = Return 10 /\
   eval (lookup cfg o) w = Return ("Name: Ada Lovelace", (VStr "Ada Lovelace", VInt 15)) /\
   10 < 15 /\ 15 - 10 < 10 ^ PyStr.max_str_digits /\
   eval (notify cfg o (increase_subject (VStr "Ada Lovelace") (15 - 10))
           (increase_body o "Name: Ada Lovelace" (VStr "Ada Lovelace") (VInt 15) 10 (15 - 10))) w
   = Return true /\
   o_write_fault o = None) /\
  forall o2 ident2 name2,
    o_read_fault o2 = None ->
    eval (lookup cfg o2) w' = Return (ident2, (name2, VInt 15)) ->
    Forall (fun ev => is_notifier_event ev = false) (new_events (cycle cfg o2) w') /\
    fs (exec (cycle cfg o2) w') = fs w'.
Proof.
  cbv zeta. split; [repeat split; vm_compute; reflexivity|].
  apply (no_notice_after_acknowledgment Sample.cfg (calm (Sample.ada 15))
           (Sample.stored "10") 10 15 "Name: Ada Lovelace" (VStr "Ada Lovelace"));
    vm_compute; reflexivity.
Defined.

(** X19.  A refused write costs a second notice: when the send succeeds but
    the write is refused before the file is opened, the files stay as they
    were, and a following cycle that reads the same count and looks up a
    count above it calls the notifier again.  (The increases are of at
    most 4300 digits, as in C1.) *)
Theorem notice_repeated_after_refused_write cfg o w last current ident name e :
  eval (read_last_count o LAST_COUNT_FILE) w = Return last ->
  eval (lookup cfg o) w = Return (ident, (name, VInt current)) ->
  last < current ->
  current - last < 10 ^ PyStr.max_str_digits ->
  eval (notify cfg o (increase_subject name (current - last))
          (increase_body o ident name (VInt current) last (current - last))) w
  = Return true ->
  o_write_fault o = Some (AtOpen, e) ->
  let w' := exec (cycle cfg o) w in
  fs w' = fs w /\
  forall o2 ident2 name2 current2,
    eval (read_last_count o2 LAST_COUNT_FILE) w' = Return last ->
    eval (lookup cfg o2) w' = Return (ident2, (name2, VInt current2)) ->
    last < current2 ->
    current2 - last < 10 ^ PyStr.max_str_digits ->
    CallSendEmail (increase_subject name2 (current2 - last))
      (increase_body o2 ident2 name2 (VInt current2) last (current2 - last))
    ∈ new_events (cycle cfg o2) w'.
Proof.
  intros Hr Hl Hlt Hi Hn Hwf w'.
  destruct (cycle_increase cfg o w last current ident name Hr Hl Hlt
              (fits_increase _ _ Hlt Hi))
    as (dtl & dts & _ & _ & _ & Hfs).
  cbv zeta in Hfs. rewrite Hn in Hfs. unfold written in Hfs. rewrite Hwf in Hfs.
  split; [exact Hfs|].
  intros o2 ident2 name2 current2 Hr2 Hl2 Hlt2 Hi2.
  destruct (cycle_increase cfg o2 w' last current2 ident2 name2 Hr2 Hl2 Hlt2
              (fits_increase _ _ Hlt2 Hi2))
    as (dtl2 & dts2 & _ & _ & Htr & _).
  rewrite (new_events_app _ _ _ Htr). set_solver.
Qed.

Lemma notice_repeated_after_refused_write_witness :
  let cfg := Sample.cfg in
  let o := Sample.no_write (Sample.ada 15) in
  let w := Sample.stored "10" in
  let w' := exec (cycle cfg o) w in
  (eval (read_last_count o LAST_COUNT_FILE) w = Return 10 /\
   eval (lookup cfg o) w = Return ("Name: Ada Lovelace", (VStr "Ada Lovelace", VInt 15)) /\
   10 < 15 /\ 15 - 10 < 10 ^ PyStr.max_str_digits /\
   eval (notify cfg o (increase_subject (VStr "Ada Lovelace") (15 - 10))
           (increase_body o "Name: Ada Lovelace" (VStr "Ada Lovelace") (VInt 15) 10 (15 - 10))) w
   = Return true /\
   o_write_fault o = Some (AtOpen, Exn OtherException "Permission denied")) /\
  fs w' = fs w /\
  forall o2 ident2 name2 current2,
    eval (read_last_count o2 LAST_COUNT_FILE) w' = Return 10 ->
    eval (lookup cfg o2) w' = Return (ident2, (name2, VInt current2)) ->
    10 < current2 ->
    current2 - 10 < 10 ^ PyStr.max_str_digits ->
    CallSendEmail (increase_subject name2 (current2 - 10))
      (increase_body o2 ident2 name2 (VInt current2) 10 (current2 - 10))
    ∈ new_events (cycle cfg o2) w'.
Proof.
  cbv zeta. split; [repeat split; vm_compute; reflexivity|].
  apply (notice_repeated_after_refused_write Sample.cfg (Sample.no_write (Sample.ada 15))
           (Sample.stored "10") 10 15 "Name: Ada Lovelace" (VStr "Ada Lovelace")
           (Exn OtherException "Permission denied"));
    vm_compute; reflexivity.
Defined.

(** The whole iteration when the increase has more than 4300 digits. *)
Lemma cycle_increase_beyond cfg o w last current ident name :
  eval (read_last_count o LAST_COUNT_FILE) w = Return last ->
  eval (lookup cfg o) w = Return (ident, (name, VInt current)) ->
  last < current -> PyStr.fits (current - last) = false ->
  exists dl dtl,
    Forall (fun ev => is_scholar_event ev = true) dtl /\
    exec (cycle cfg o) w =
      World (fs w)
        (log w ++ dl ++
         [ (INFO, "New citation count (" +:+ PyStr.str current
                  +:+ ") is higher than the last count (" +:+ PyStr.str last
                  +:+ "). Sending email.");
           (ERROR, "An unexpected error occurred during the check cycle: "
                   +:+ exn_msg str_limit_error);
           (ERROR, "Script will continue to the next cycle after the delay.");
           (INFO, "Waiting for 1 hour before next check...") ])
        (trace w ++ dtl ++ [Sleep 3600]).
Proof.
  intros Hr Hl Hlt Hfi.
  destruct (lookup_total cfg o) as (i & n & t & dll & dtl & Hwl & Hdtl).
  pose proof (writes_eval _ _ _ _ w Hwl) as E. rewrite Hl in E. symmetry in E.
  injection E as -> -> ->.
  destruct (cycle_run_from cfg o w last ident name (VInt current) dll dtl Hr Hwl)
    as (dlr & Ec).
  pose proof (read_last_count_fits o _ w last Hr) as Hfl.
  destruct (lookup_formattable cfg o w ident name _ Hl ltac:(discriminate)) as [Hfn Hfc].
  rewrite (decide_increase_beyond cfg o _ last current ident name Hfl Hfc Hfi
             (lookup_ident cfg o w ident name _ Hl ltac:(discriminate)) Hlt) in Ec.
  unfold wind_up in Ec. cbn [fst snd fs log trace] in Ec.
  exists ((INFO, "--- Starting Hourly Citation Check ---") :: dlr
          ++ (INFO, "Last known citation count: " +:+ PyStr.str last) :: dll), dtl.
  split; [assumption|].
  unfold exec. rewrite Ec. cbn [snd]. rewrite <- !app_assoc. cbn [app]. reflexivity.
Qed.

(** X26.  An increase of more than 4300 digits is never announced: the
    subject line cannot be formatted, the error is caught by the handler of
    the loop, and the cycle ends without a notifier call and without
    touching any file.  (Both counts have at most 4300 digits; such an
    increase needs a negative stored count.) *)
Theorem increase_beyond_limit_skipped cfg o w last current ident name :
  eval (read_last_count o LAST_COUNT_FILE) w = Return last ->
  eval (lookup cfg o) w = Return (ident, (name, VInt current)) ->
  10 ^ PyStr.max_str_digits <= current - last ->
  let w' := exec (cycle cfg o) w in
  fs w' = fs w /\
  Forall (fun ev => is_notifier_event ev = false) (new_events (cycle cfg o) w) /\
  (ERROR, "An unexpected error occurred during the check cycle: Exceeds the limit (4300 digits) for integer string conversion; use sys.set_int_max_str_digits() to increase the limit")
  ∈ new_log (cycle cfg o) w.
Proof.
  intros Hr Hl Hi w'.
  assert (last < current) as Hlt.
  { pose proof (Z.pow_pos_nonneg 10 PyStr.max_str_digits ltac:(lia)
                  ltac:(unfold PyStr.max_str_digits; lia)). lia. }
  assert (PyStr.fits (current - last) = false) as Hfi.
  { destruct (PyStr.fits (current - last)) eqn:E; [|reflexivity].
    apply fits_iff in E. lia. }
  destruct (cycle_increase_beyond cfg o w last current ident name Hr Hl Hlt Hfi)
    as (dl & dtl & Hdtl & E).
  subst w'. split; [|split].
  - now rewrite E.
  - rewrite (new_events_app _ w (dtl ++ [Sleep 3600])) by now rewrite E.
    apply Forall_app. split; [now apply scholar_not_notifier | repeat constructor].
  - erewrite new_log_app by (rewrite E; reflexivity). cbn. set_solver.
Qed.

Lemma increase_beyond_limit_skipped_witness :
  let cfg := Sample.cfg in
  let o := calm (Sample.ada 1) in
  let last := 1 - 10 ^ PyStr.max_str_digits in
  let w := Sample.stored (PyStr.str last) in
  (eval (read_last_count o LAST_COUNT_FILE) w = Return last /\
   eval (lookup cfg o) w = Return ("Name: Ada Lovelace", (VStr "Ada Lovelace", VInt 1)) /\
   10 ^ PyStr.max_str_digits <= 1 - last) /\
  fs (exec (cycle cfg o) w) = fs w /\
  Forall (fun ev => is_notifier_event ev = false) (new_events (cycle cfg o) w) /\
  (ERROR, "An unexpected error occurred during the check cycle: Exceeds the limit (4300 digits) for integer string conversion; use sys.set_int_max_str_digits() to increase the limit")
  ∈ new_log (cycle cfg o) w.
Proof.
  cbv zeta.
  assert (eval (read_last_count (calm (Sample.ada 1)) LAST_COUNT_FILE)
            (Sample.stored (PyStr.str (1 - 10 ^ PyStr.max_str_digits)))
          = Return (1 - 10 ^ PyStr.max_str_digits)) as Hr by (vm_compute; reflexivity).
  assert (10 ^ PyStr.max_str_digits <= 1 - (1 - 10 ^ PyStr.max_str_digits)) as Hi by lia.
  split; [split; [exact Hr | split; [reflexivity | exact Hi]]|].
  exact (increase_beyond_limit_skipped Sample.cfg (calm (Sample.ada 1))
           (Sample.stored (PyStr.str (1 - 10 ^ PyStr.max_str_digits)))
           (1 - 10 ^ PyStr.max_str_digits) 1 "Name: Ada Lovelace" (VStr "Ada Lovelace")
           Hr eq_refl Hi).
Defined.

(** ** The shape of a cycle and the loop *)

(** Every iteration: the lookup, then at most one notice, then the sleep. *)
Lemma cycle_events cfg o w :
  exists dts dtn,
    trace (exec (cycle cfg o) w) = trace w ++ dts ++ dtn ++ [Sleep 3600] /\
    Forall (fun ev => is_scholar_event ev = true) dts /\
    Forall (fun ev => is_notifier_event ev = true) dtn /\
    (dtn = [] \/
     exists subject body steps,
       dtn = CallSendEmail subject body :: steps /\
       steps `sublist_of`
         smtp_dialogue subject body (SENDER_EMAIL cfg) (SENDER_PASSWORD cfg)
           (RECEIVER_EMAIL cfg) (SMTP_SERVER cfg) (VInt (SMTP_PORT cfg))) /\
    new_events (lookup cfg o) w = dts.
Proof.
  destruct (read_last_count_shape o LAST_COUNT_FILE w) as (last & dl0 & Er & _).
  assert (eval (read_last_count o LAST_COUNT_FILE) w = Return last) as Hr
    by (unfold eval; now rewrite Er).
  destruct (lookup_total cfg o) as (ident & name & total & dll & dtl & Hwl & Hdtl).
  pose proof (writes_eval _ _ _ _ w Hwl) as Hl.
  assert (new_events (lookup cfg o) w = dtl) as Hcalls
    by (apply new_events_app; unfold exec; now rewrite Hwl).
  destruct (cycle_run_from cfg o w last ident name total dll dtl Hr Hwl) as (dlr & Ec).
  assert (forall r w3, trace w3 = trace w ++ dtl ->
            decide_and_act cfg o last ident name total
              (World (fs w)
                 (log w ++ (INFO, "--- Starting Hourly Citation Check ---") :: dlr
                  ++ (INFO, "Last known citation count: " +:+ PyStr.str last) :: dll)
                 (trace w ++ dtl)) = (r, w3) ->
            exists dts dtn,
              trace (exec (cycle cfg o) w) = trace w ++ dts ++ dtn ++ [Sleep 3600] /\
              Forall (fun ev => is_scholar_event ev = true) dts /\
              Forall (fun ev => is_notifier_event ev = true) dtn /\
              (dtn = [] \/
               exists subject body steps,
                 dtn = CallSendEmail subject body :: steps /\
                 steps `sublist_of`
                   smtp_dialogue subject body (SENDER_EMAIL cfg) (SENDER_PASSWORD cfg)
                     (RECEIVER_EMAIL cfg) (SMTP_SERVER cfg) (VInt (SMTP_PORT cfg))) /\
              new_events (lookup cfg o) w = dts)
    as Hquiet.
  { intros r w3 Htr Ed. exists dtl, []. unfold exec. rewrite Ec. cbn [snd].
    rewrite Ed, wind_up_trace, Htr. cbn [app]. rewrite <- !app_assoc.
    split; [reflexivity|].
    split; [assumption|]. split; [constructor|]. split; [now left | exact Hcalls]. }
  destruct (String.eqb ident "N/A") eqn:Hid.
  { apply String.eqb_eq in Hid. subst ident.
    eapply Hquiet; [|apply decide_unconfigured]. reflexivity. }
  pose proof (read_last_count_fits o _ w last Hr) as Hfl.
  destruct total as [|current|s|q].
  - eapply Hquiet; [|apply decide_no_count]. rewrite Hid. reflexivity.
  - destruct (lookup_formattable cfg o w ident name _ Hl ltac:(discriminate)) as [Hfn Hfc].
    destruct (Z.lt_trichotomy last current) as [Hlt | [<- | Hgt]];
      [destruct (PyStr.fits (current - last)) eqn:Hfi|..].
    + destruct (send_email_steps o (increase_subject name (current - last))
                  (increase_body o ident name (VInt current) last (current - last))
                  (SENDER_EMAIL cfg) (SENDER_PASSWORD cfg) (RECEIVER_EMAIL cfg)
                  (SMTP_SERVER cfg) (VInt (SMTP_PORT cfg)))
        as (r & dls & steps & Hw & Hsteps & Hsub).
      fold (notify cfg o (increase_subject name (current - last))
              (increase_body o ident name (VInt current) last (current - last))) in Hw.
      destruct (cycle_increase_from cfg o w last current ident name _ _ _ Hr Hl Hlt Hfi Hw)
        as (dtl' & Hdtl' & Hcalls' & Htr & _).
      exists dtl', (CallSendEmail (increase_subject name (current - last))
                      (increase_body o ident name (VInt current) last (current - last))
                    :: steps).
      split; [exact Htr|]. split; [assumption|].
      split; [constructor; [reflexivity | assumption]|].
      split; [right; eauto | exact Hcalls'].
    + eapply Hquiet; [|now apply decide_increase_beyond]. reflexivity.
    + eapply Hquiet; [|now apply decide_equal]. reflexivity.
    + eapply Hquiet; [|now apply decide_decrease]. now rewrite write_last_count_trace.
  - destruct (decide_not_a_number cfg o
                (World (fs w)
                   (log w ++ (INFO, "--- Starting Hourly Citation Check ---") :: dlr
                    ++ (INFO, "Last known citation count: " +:+ PyStr.str last) :: dll)
                   (trace w ++ dtl))
                last ident name (VStr s) Hid ltac:(discriminate)
                ltac:(intros z; discriminate)) as (e & _ & Ed).
    eapply Hquiet; [|exact Ed]. reflexivity.
  - destruct (decide_not_a_number cfg o
                (World (fs w)
                   (log w ++ (INFO, "--- Starting Hourly Citation Check ---") :: dlr
                    ++ (INFO, "Last known citation count: " +:+ PyStr.str last) :: dll)
                   (trace w ++ dtl))
                last ident name (VGen q) Hid ltac:(discriminate)
                ltac:(intros z; discriminate)) as (e & _ & Ed).
    eapply Hquiet; [|exact Ed]. reflexivity.
Qed.

(** X20.  The calls of one cycle, whatever happens: first the calls of the
    lookup, then at most one call of the notifier with at most one SMTP
    dialogue in order, and last the sleep.  In particular a cycle sends at
    most one message. *)
Theorem cycle_call_order cfg o w :
  exists dts dtn,
    new_events (cycle cfg o) w = dts ++ dtn ++ [Sleep 3600] /\
    Forall (fun ev => is_scholar_event ev = true) dts /\
    (dtn = [] \/
     exists subject body steps,
       dtn = CallSendEmail subject body :: steps /\
       steps `sublist_of`
         smtp_dialogue subject body (SENDER_EMAIL cfg) (SENDER_PASSWORD cfg)
           (RECEIVER_EMAIL cfg) (SMTP_SERVER cfg) (VInt (SMTP_PORT cfg))).
Proof.
  destruct (cycle_events cfg o w) as (dts & dtn & Htr & Hs & _ & Hn & _).
  exists dts, dtn. split; [now apply new_events_app|]. split; assumption.
Qed.

(** The author settings of a loaded configuration. *)
Lemma load_config_author environ cfg :
  load_config environ = Return cfg ->
  AUTHOR_NAME cfg = getenv environ "AUTHOR_NAME" (VStr "Albert Einstein") /\
  AUTHOR_ID cfg = getenv environ "AUTHOR_ID" VNone.
Proof.
  unfold load_config. destruct (py_int _); [|discriminate].
  intros [= <-]. split; reflexivity.
Qed.

Lemma unset_or_empty_falsy environ key :
  environ !! key = None \/ environ !! key = Some EmptyString ->
  truthy (getenv environ key VNone) = false.
Proof. unfold getenv. now intros [-> | ->]. Qed.



(** The calls of a cycle's lookup are those of [get_citation_count]. *)
Lemma lookup_events cfg o w :
  new_events (lookup cfg o) w =
    if truthy (AUTHOR_ID cfg) then scholar_calls o VNone (AUTHOR_ID cfg)
    else if truthy (AUTHOR_NAME cfg) then scholar_calls o (AUTHOR_NAME cfg) VNone
    else [].
Proof.
  unfold lookup.
  destruct (truthy (AUTHOR_ID cfg)); [|destruct (truthy (AUTHOR_NAME cfg))].
  - rewrite <- (get_citation_count_events o VNone (AUTHOR_ID cfg) w).
    unfold new_events, exec, mbind, M_bind, bind.
    now destruct (get_citation_count o VNone (AUTHOR_ID cfg) w) as [[r|e] w1].
  - rewrite <- (get_citation_count_events o (AUTHOR_NAME cfg) VNone w).
    unfold new_events, exec, mbind, M_bind, bind.
    now destruct (get_citation_count o (AUTHOR_NAME cfg) VNone w) as [[r|e] w1].
  - unfold new_events, exec. unfold_m. cbn. now rewrite drop_all.
Qed.

(** X25.  Leaving [AUTHOR_NAME] unset does not switch the check off: with
    no usable [AUTHOR_ID] either, every cycle searches Google Scholar for
    the default name, 'Albert Einstein'. *)
Theorem unset_author_name_is_einstein environ cfg o w :
  load_config environ = Return cfg ->
  environ !! "AUTHOR_NAME" = None ->
  environ !! "AUTHOR_ID" = None \/ environ !! "AUTHOR_ID" = Some EmptyString ->
  exists rest,
    new_events (cycle cfg o) w = ScholarSearchName (VStr "Albert Einstein") :: rest.
Proof.
  intros Hcfg Hn Hi.
  destruct (load_config_author environ cfg Hcfg) as [En Ei].
  assert (truthy (AUTHOR_ID cfg) = false) as Hid
    by (rewrite Ei; now apply unset_or_empty_falsy).
  assert (AUTHOR_NAME cfg = VStr "Albert Einstein") as Hname
    by (rewrite En; unfold getenv; now rewrite Hn).
  destruct (cycle_events cfg o w) as (dts & dtn & Htr & _ & _ & _ & Hcalls).
  rewrite (new_events_app _ _ _ Htr), <- Hcalls, lookup_events, Hid, Hname.
  cbn [truthy]. unfold scholar_calls. cbn. eauto.
Qed.

Lemma unset_author_name_is_einstein_witness :
  let environ : gmap string string := {[ "SMTP_PORT" := "465" ]} in
  let cfg := Config (VStr "Albert Einstein") VNone (VStr "smtp.gmail.com") 465
                    VNone VNone VNone in
  (load_config environ = Return cfg /\
   environ !! "AUTHOR_NAME" = None /\
   (environ !! "AUTHOR_ID" = None \/ environ !! "AUTHOR_ID" = Some EmptyString)) /\
  exists rest,
    new_events (cycle cfg (calm (Sample.ada 15))) (Sample.stored "10")
    = ScholarSearchName (VStr "Albert Einstein") :: rest.
Proof.
  cbv zeta. split; [split; [reflexivity | split; [reflexivity | left; reflexivity]]|].
  apply (unset_author_name_is_einstein {[ "SMTP_PORT" := "465" ]});
    [reflexivity | reflexivity | left; reflexivity].
Defined.

Lemma no_sleep_in evs :
  Forall (fun ev => is_scholar_event ev = true \/ is_notifier_event ev = true) evs ->
  filter (fun ev => is_sleep ev = true) evs = [].
Proof.
  induction 1 as [|ev evs Hev _ IH]; [reflexivity|].
  rewrite filter_cons_False; [exact IH|].
  destruct ev; cbn in *; intuition congruence.
Qed.

(** The loop, iteration after iteration. *)
Lemma run_events cfg os : forall w,
  exists evs,
    eval (run cfg os) w = Return tt /\
    trace (exec (run cfg os) w) = trace w ++ evs /\
    length (filter (fun ev => is_sleep ev = true) evs) = length os.
Proof.
  induction os as [|o os IH]; intros w.
  - exists []. cbn. now rewrite app_nil_r.
  - destruct (cycle_events cfg o w) as (dts & dtn & Htr & Hs & Hn & _).
    destruct (IH (exec (cycle cfg o) w)) as (evs & Hev & Htr' & Hlen).
    exists (dts ++ dtn ++ Sleep 3600 :: evs).
    unfold eval, exec in *. rewrite run_step. split; [exact Hev|]. split.
    + unfold exec. rewrite Htr', Htr. now rewrite <- !app_assoc.
    + rewrite !filter_app.
      rewrite (no_sleep_in dts) by (eapply Forall_impl; [exact Hs | auto]).
      rewrite (no_sleep_in dtn) by (eapply Forall_impl; [exact Hn | auto]).
      rewrite filter_cons_True by reflexivity.
      cbn [app length]. now rewrite Hlen.
Qed.

(** X22.  The loop never stops by itself: however the cycles go, running
    them raises nothing, and there is exactly one sleep per cycle. *)
Theorem run_sleeps_once_per_cycle cfg os w :
  eval (run cfg os) w = Return tt /\
  length (filter (fun ev => is_sleep ev = true) (new_events (run cfg os) w)) = length os.
Proof.
  destruct (run_events cfg os w) as (evs & Hev & Htr & Hlen).
  split; [exact Hev|]. now rewrite (new_events_app _ _ _ Htr).
Qed.

(** X23.  While every lookup fails, the store is safe: after any number of
    cycles whose lookup yields no count, every file is as it was at the
    start. *)
Theorem run_of_failed_lookups_keeps_store cfg os w :
  Forall (fun o => forall w0, exists ident name,
            eval (lookup cfg o) w0 = Return (ident, (name, VNone))) os ->
  fs (exec (run cfg os) w) = fs w /\ persisted (exec (run cfg os) w) = persisted w.
Proof.
  intros H. revert w.
  assert (forall w, fs (exec (run cfg os) w) = fs w) as Hfs.
  { induction H as [|o os Ho _ IH]; intros w; [reflexivity|].
    unfold exec. rewrite run_step. fold (exec (run cfg os) (exec (cycle cfg o) w)).
    rewrite IH. destruct (Ho w) as (ident & name & Hl).
    destruct (cycle_no_count cfg o w ident name Hl) as (dl & dtl & _ & _ & _ & Hkeep & _).
    exact Hkeep. }
  intros w. split; [apply Hfs | apply persisted_fs, Hfs].
Qed.

Lemma run_of_failed_lookups_keeps_store_witness :
  let os := [Sample.not_found; Sample.not_found; Sample.not_found] in
  let w := Sample.stored "10" in
  Forall (fun o => forall w0, exists ident name,
            eval (lookup Sample.cfg o) w0 = Return (ident, (name, VNone))) os /\
  fs (exec (run Sample.cfg os) w) = fs w /\
  persisted (exec (run Sample.cfg os) w) = persisted w.
Proof.
  cbv zeta.
  assert (Forall (fun o => forall w0, exists ident name,
                    eval (lookup Sample.cfg o) w0 = Return (ident, (name, VNone)))
            [Sample.not_found; Sample.not_found; Sample.not_found]) as H
    by (repeat constructor; intros w0; eexists _, _; reflexivity).
  split; [exact H|].
  exact (run_of_failed_lookups_keeps_store Sample.cfg _ (Sample.stored "10") H).
Defined.
